(** * woo-express: the stock normaliser and the shipping-rate pipeline

    A shallow embedding of [server.js]: the helper [parseStockInfo] and the
    handler of [POST /api/shipping/calculate], with the JavaScript values,
    numbers and string functions they rely on.

    Conventions of the embedding.
    - A JavaScript number is an IEEE 754 binary64 value: [spec_float] with
      precision 53 and maximal exponent 1024, with the arithmetic and the
      comparisons of the Standard Library's [SpecFloat].
    - A JavaScript string is a [string]; each character stands for one code
      unit below 256.
    - An object used as a dictionary is a [gmap] from property names to
      values; a property that is not in the map reads as [undefined].
    - A [throw] is the [Throw] of a small error monad; [try]/[catch] is
      [try_catch]. *)

From stdpp Require Import gmap strings list pretty.
From Stdlib Require Import ZArith Ascii String SpecFloat Lia.

Local Open Scope string_scope.

(** ** Numbers *)

Module Num.

Definition number : Type := spec_float.

Definition prec : Z := 53.
Definition emax : Z := 1024.

Definition nan : number := S754_nan.
Definition zero : number := S754_zero false.

(** The number denoted by an integer literal of the source. *)
Definition of_Z (z : Z) : number := binary_normalize prec emax z 0 false.

Definition one : number := Eval vm_compute in of_Z 1.
Definition hundred : number := Eval vm_compute in of_Z 100.

Definition add : number -> number -> number := SFadd prec emax.
Definition mul : number -> number -> number := SFmul prec emax.
Definition div : number -> number -> number := SFdiv prec emax.

(** [x === y], [x < y] and [x <= y] on numbers. *)
Definition eqb : number -> number -> bool := SFeqb.
Definition ltb : number -> number -> bool := SFltb.
Definition leb : number -> number -> bool := SFleb.

Definition is_nan (x : number) : bool :=
  match x with S754_nan => true | _ => false end.

(** Neither [NaN] nor an infinity. *)
Definition is_finite (x : number) : bool :=
  match x with S754_zero _ | S754_finite _ _ _ => true | _ => false end.

(** ToBoolean on a number: [0], [-0] and [NaN] are falsy. *)
Definition truthy (x : number) : bool := negb (is_nan x || eqb x zero).

(** The binary64 value nearest to [m * 10 ^ e], ties to even, carrying the
    sign [neg]; a zero mantissa keeps the sign. *)
Definition of_decimal (neg : bool) (m e : Z) : number :=
  match m with
  | Zpos p =>
      if (0 <=? e)%Z
      then binary_normalize prec emax
             (if neg then (- (m * 10 ^ e))%Z else (m * 10 ^ e)%Z) 0 false
      else SFdiv prec emax (S754_finite neg p 0)
             (S754_finite false (Z.to_pos (10 ^ (- e))) 0)
  | _ => S754_zero neg
  end.

End Num.

Abbreviation number := Num.number.

(** ** Strings *)

Module Str.

Local Open Scope char_scope.

Definition code (c : ascii) : N := N_of_ascii c.

(** WhiteSpace and LineTerminator code units below 256: TAB, LF, VT, FF,
    CR, SP and NBSP. *)
Definition is_space (c : ascii) : bool :=
  let n := code c in
  ((9 <=? n) && (n <=? 13) || (n =? 32) || (n =? 160))%N.

Definition is_digit (c : ascii) : bool :=
  let n := code c in ((48 <=? n) && (n <=? 57))%N.

Definition digit_val (c : ascii) : Z := (Z.of_N (code c) - 48)%Z.

(** [s.includes(c)] for a one-character search string. *)
Fixpoint includes (c : ascii) (s : string) : bool :=
  match s with
  | EmptyString => false
  | String d r => if Ascii.eqb d c then true else includes c r
  end.

(** [s.replace(c, '')] with a string pattern: only the first occurrence
    is removed. *)
Fixpoint remove_first (c : ascii) (s : string) : string :=
  match s with
  | EmptyString => EmptyString
  | String d r => if Ascii.eqb d c then r else String d (remove_first c r)
  end.

Fixpoint trim_start (s : string) : string :=
  match s with
  | String c r => if is_space c then trim_start r else s
  | EmptyString => EmptyString
  end.

Fixpoint trim_end (s : string) : string :=
  match s with
  | String c r =>
      match trim_end r with
      | EmptyString => if is_space c then EmptyString else String c EmptyString
      | r' => String c r'
      end
  | EmptyString => EmptyString
  end.

(** [s.trim()]. *)
Definition trim (s : string) : string := trim_end (trim_start s).

(** The rest of [s] after the prefix [p], when [s] starts with [p]. *)
Fixpoint strip_prefix (p s : string) : option string :=
  match p, s with
  | EmptyString, _ => Some s
  | String a p', String b s' => if Ascii.eqb a b then strip_prefix p' s' else None
  | String _ _, EmptyString => None
  end.

(** The longest prefix of decimal digits, and what follows it. *)
Fixpoint span_digits (s : string) : string * string :=
  match s with
  | String c r =>
      if is_digit c
      then let '(ds, rest) := span_digits r in (String c ds, rest)
      else (EmptyString, s)
  | EmptyString => (EmptyString, EmptyString)
  end.

Fixpoint digits_value_from (acc : Z) (ds : string) : Z :=
  match ds with
  | String c r => digits_value_from (10 * acc + digit_val c)%Z r
  | EmptyString => acc
  end.

Definition digits_value (ds : string) : Z := digits_value_from 0 ds.

End Str.

(** ** Numeric strings

    [parseFloat] reads the longest prefix that is a StrDecimalLiteral, after
    leading white space; [Number] on a string (StringToNumber) reads the
    whole trimmed string as a StrNumericLiteral. *)

Module NumStr.

Import Str.
Local Open Scope char_scope.

(** A decimal literal, before its conversion to binary64: [Infinity], or
    the digits [m] scaled by [10 ^ e]. *)
Variant decimal := DInf | DFin (m e : Z).

Definition to_number (neg : bool) (d : decimal) : number :=
  match d with
  | DInf => S754_infinity neg
  | DFin m e => Num.of_decimal neg m e
  end.

(** ExponentPart, when one is there: [e] or [E], an optional sign and at
    least one digit. Without a digit the literal ends before the [e]. *)
Definition parse_exponent (s : string) : Z * string :=
  match s with
  | String c r =>
      if Ascii.eqb c "e" || Ascii.eqb c "E" then
        let '(neg, r') :=
          match r with
          | String "+" r' => (false, r')
          | String "-" r' => (true, r')
          | _ => (false, r)
          end in
        let '(ds, rest) := span_digits r' in
        match ds with
        | EmptyString => (0%Z, s)
        | _ => ((if neg then - digits_value ds else digits_value ds)%Z, rest)
        end
      else (0%Z, s)
  | EmptyString => (0%Z, s)
  end.

(** The longest prefix that is a StrUnsignedDecimalLiteral. *)
Definition parse_unsigned (s : string) : option (decimal * string) :=
  match strip_prefix "Infinity" s with
  | Some rest => Some (DInf, rest)
  | None =>
      let '(ip, r1) := span_digits s in
      match r1 with
      | String "." r2 =>
          let '(fp, r3) := span_digits r2 in
          match ip, fp with
          | EmptyString, EmptyString => None
          | _, _ =>
              let '(e, rest) := parse_exponent r3 in
              Some (DFin (digits_value (ip ++ fp))
                         (e - Z.of_nat (String.length fp))%Z, rest)
          end
      | _ =>
          match ip with
          | EmptyString => None
          | _ => let '(e, rest) := parse_exponent r1 in
                 Some (DFin (digits_value ip) e, rest)
          end
      end
  end.

(** The longest prefix that is a StrDecimalLiteral, as a number. *)
Definition parse_decimal (s : string) : option (number * string) :=
  let '(neg, r) :=
    match s with
    | String "+" r => (false, r)
    | String "-" r => (true, r)
    | _ => (false, s)
    end in
  match parse_unsigned r with
  | Some (d, rest) => Some (to_number neg d, rest)
  | None => None
  end.

(** [parseFloat(s)] *)
Definition parseFloat (s : string) : number :=
  match parse_decimal (trim_start s) with
  | Some (n, _) => n
  | None => Num.nan
  end.

(** Digits of a NonDecimalIntegerLiteral in the given radix. *)
Definition radix_digit (radix : Z) (c : ascii) : option Z :=
  let n := Z.of_N (code c) in
  let v := (if is_digit c then n - 48
            else if (97 <=? n) && (n <=? 102) then n - 87
            else if (65 <=? n) && (n <=? 70) then n - 55
            else 16)%Z in
  if (v <? radix)%Z then Some v else None.

Fixpoint radix_value (radix acc : Z) (s : string) : option Z :=
  match s with
  | String c r =>
      match radix_digit radix c with
      | Some v => radix_value radix (radix * acc + v)%Z r
      | None => None
      end
  | EmptyString => Some acc
  end.

Definition parse_non_decimal (s : string) : option number :=
  match s with
  | String "0" (String c (String _ _ as ds)) =>
      let radix :=
        if Ascii.eqb c "x" || Ascii.eqb c "X" then Some 16%Z
        else if Ascii.eqb c "o" || Ascii.eqb c "O" then Some 8%Z
        else if Ascii.eqb c "b" || Ascii.eqb c "B" then Some 2%Z
        else None in
      match radix with
      | Some rdx => Num.of_Z <$> radix_value rdx 0%Z ds
      | None => None
      end
  | _ => None
  end.

(** StringToNumber: [Number(s)] for a string [s]. *)
Definition string_to_number (s : string) : number :=
  match trim s with
  | EmptyString => Num.zero
  | t =>
      match parse_non_decimal t with
      | Some n => n
      | None =>
          match parse_decimal t with
          | Some (n, EmptyString) => n
          | _ => Num.nan
          end
      end
  end.

End NumStr.

Definition parseFloat := NumStr.parseFloat.

(** ** Exceptions

    What the code can throw, and a small error monad for the code that
    throws or catches. *)

Inductive error :=
  | RequestFailed (message : string)  (* a rejected upstream call *)
  | TypeError                         (* raised by the engine *)
  | Error (message : string).         (* [new Error(message)] *)

Inductive result (A : Type) :=
  | Return (a : A)
  | Throw (e : error).

Arguments Return {A} a.
Arguments Throw {A} e.

#[export] Instance result_ret : MRet result := fun A a => Return a.

#[export] Instance result_bind : MBind result := fun A B k c =>
  match c with
  | Return a => k a
  | Throw e => Throw e
  end.

(** [try { c } catch (error) { h }] for a block whose outcome is a value. *)
Definition try_catch {A : Type} (c : result A) (h : error -> A) : A :=
  match c with
  | Return a => a
  | Throw e => h e
  end.

(** ** Values

    The values a JSON body holds at the places the code looks at: the
    primitives, and objects whose properties hold primitives. *)

Inductive prim :=
  | Undefined
  | Null
  | Bool (b : bool)
  | Number (n : number)
  | Str (s : string).

Inductive value :=
  | Prim (p : prim)
  | Object (o : gmap string prim).

(** ToNumber: [Number(v)]. *)
Definition to_number (v : prim) : number :=
  match v with
  | Undefined => Num.nan
  | Null => Num.zero
  | Bool b => if b then Num.one else Num.zero
  | Number n => n
  | Str s => NumStr.string_to_number s
  end.

(** ToBoolean: the truthiness of a value; every object is truthy. *)
Definition truthy_prim (v : prim) : bool :=
  match v with
  | Undefined | Null => false
  | Bool b => b
  | Number n => Num.truthy n
  | Str s => negb (String.eqb s "")
  end.

Definition truthy (v : value) : bool :=
  match v with
  | Prim p => truthy_prim p
  | Object _ => true
  end.

(** [a === b] on primitives. *)
Definition strict_eq (a b : prim) : bool :=
  match a, b with
  | Undefined, Undefined => true
  | Null, Null => true
  | Bool x, Bool y => Bool.eqb x y
  | Number x, Number y => Num.eqb x y
  | Str x, Str y => String.eqb x y
  | _, _ => false
  end.

(** [v.k] for the property names the code reads. On [undefined] and [null]
    the read throws; on another primitive it finds nothing; on an object a
    property that is absent reads as [undefined]. *)
Definition get (v : value) (k : string) : result prim :=
  match v with
  | Object o => Return (default Undefined (o !! k))
  | Prim (Undefined | Null) => Throw TypeError
  | Prim _ => Return Undefined
  end.

(** [v.k = x]. The file is a sloppy-mode script: the assignment to a
    property of a number, a string or a boolean is dropped without an
    error. *)
Definition set (v : value) (k : string) (x : prim) : result value :=
  match v with
  | Object o => Return (Object (<[k := x]> o))
  | Prim (Undefined | Null) => Throw TypeError
  | Prim _ => Return v
  end.

(** ** The stock normaliser *)

Definition parseStockInfo (product : value) : result value :=
  if negb (truthy product) then Return product
  else
    q ← get product "stock_quantity";
    product ←
      (if negb (strict_eq q Undefined)
       then q ← get product "stock_quantity";
            set product "stock_quantity" (Number (to_number q))
       else set product "stock_quantity" (Number Num.zero));
    q ← get product "stock_quantity";
    if strict_eq q (Number Num.zero)
    then
      status ← get product "stock_status";
      if strict_eq status (Str "instock")
      then set product "stock_quantity" (Number Num.one)
      else Return product
    else Return product.

(** ** The data of the shipping pipeline *)

Record CartItem := { price : number; quantity : number }.

(** The handler reads nothing but the country of the address. *)
Record ShippingAddress := { country : option string }.

(** A location as upstream lists it, with its [type] and its [code]. *)
Record Location := { loc_type : string; code : string }.

Record ShippingZone := { zone_id : Z; name : string }.

(** One entry of a method's [settings]; an absent or [null] [value] is
    [None]. *)
Record Setting := { value_of : option string }.

Record ShippingMethod := {
  method_id : option string;
  method_title : option string;
  title : option string;
  instance_id : Z;
  enabled : bool;
  settings : option (gmap string Setting);
  method_description : option string
}.

Record ShippingOption := {
  opt_id : option string;
  opt_instance_id : Z;
  opt_title : string;
  cost : number;
  description : string;
  opt_enabled : bool
}.

(** The request body; a field that is missing or [null] is [None]. *)
Record Body := {
  cart_items : option (list CartItem);
  shipping_address : option ShippingAddress
}.

(** The upstream commerce API, as the three calls of the handler:
    [/shipping/zones], [/shipping/zones/:id/locations] and
    [/shipping/zones/:id/methods]. *)
Record Upstream := {
  get_zones : result (list ShippingZone);
  get_locations : Z -> result (list Location);
  get_methods : Z -> result (list ShippingMethod)
}.

Inductive response :=
  | Json200 (shipping_options : list ShippingOption) (zone : ShippingZone)
  | Json500 (tag : string) (cause : error).

(** ** Zone selection *)

(** The callback of [locations.find]. The country is read only once the
    location's type is ['country'] ([&&] short-circuits); the read throws
    when the request has no [shipping_address]. *)
Definition country_matches (shipping_address : option ShippingAddress)
    (location : Location) : result bool :=
  if String.eqb (loc_type location) "country" then
    match shipping_address with
    | Some address =>
        Return (match country address with
                | Some c => String.eqb (code location) c
                | None => false
                end)
    | None => Throw TypeError
    end
  else Return false.

(** [xs.find(p)] for a callback that may throw. *)
Fixpoint find_m {A : Type} (p : A -> result bool) (xs : list A)
    : result (option A) :=
  match xs with
  | [] => Return None
  | x :: rest =>
      b ← p x;
      if b : bool then Return (Some x) else find_m p rest
  end.

(** The body of the [try] block for one zone: [true] when the loop breaks
    with this zone selected. *)
Definition zone_covers (up : Upstream)
    (shipping_address : option ShippingAddress) (zone : ShippingZone)
    : result bool :=
  locations ← get_locations up (zone_id zone);
  countryMatch ← find_m (country_matches shipping_address) locations;
  Return (bool_decide (is_Some countryMatch)).

(** The [for ... of] loop over the zones, each turn in its own
    [try]/[catch]. *)
Fixpoint select_zone (up : Upstream)
    (shipping_address : option ShippingAddress) (zones : list ShippingZone)
    : option ShippingZone :=
  match zones with
  | [] => None
  | zone :: rest =>
      if try_catch (zone_covers up shipping_address zone) (fun _ => false)
      then Some zone
      else select_zone up shipping_address rest
  end.

Definition catch_all_name : string :=
  "Locations not covered by your other zones".

(** [zones.find(zone => zone.name !== ...) || zones[0]] *)
Definition fallback_zone (zones : list ShippingZone) : option ShippingZone :=
  match List.find (fun zone => negb (String.eqb (name zone) catch_all_name)) zones with
  | Some zone => Some zone
  | None => head zones
  end.

(** [selectedZone] when the handler reaches its no-zones guard. *)
Definition selected_zone (up : Upstream)
    (shipping_address : option ShippingAddress) (zones : list ShippingZone)
    : option ShippingZone :=
  match select_zone up shipping_address zones with
  | Some zone => Some zone
  | None => fallback_zone zones
  end.

(** ** Method costs *)

(** [parseFloat(v)] for a setting's value: ToString comes first. *)
Definition parseFloat_value (v : option string) : number :=
  parseFloat (default "undefined" v).

Definition method_cost (cartTotal : number) (method : ShippingMethod) : number :=
  match settings method with
  | Some st =>
      match st !! "cost" with
      | Some c =>
          match value_of c with
          | Some costValue =>
              if String.eqb costValue "" then Num.zero
              else if Str.includes "%" costValue then
                let percentage := parseFloat (Str.remove_first "%" costValue) in
                Num.div (Num.mul cartTotal percentage) Num.hundred
              else if String.eqb costValue "min_amount" then
                match st !! "min_amount" with
                | Some m => parseFloat_value (value_of m)
                | None => Num.zero
                end
              else
                let n := parseFloat costValue in
                if Num.truthy n then n else Num.zero
          | None => Num.zero
          end
      | None => Num.zero
      end
  | None => Num.zero
  end.

(** A string that is there and not empty. *)
Definition non_empty (v : option string) : option string :=
  match v with
  | Some s => if String.eqb s "" then None else Some s
  | None => None
  end.

Definition setting_value (method : ShippingMethod) (key : string) : option string :=
  st ← settings method; entry ← st !! key; non_empty (value_of entry).

Definition method_title_of (method : ShippingMethod) : string :=
  match setting_value method "title" with
  | Some custom => custom
  | None =>
      match non_empty (method_title method), non_empty (title method) with
      | Some t, _ => t
      | None, Some t => t
      | None, None => "Shipping"
      end
  end.

(** [s.replace(/<[^>]*>/g, '')]: a tag runs from a [<] to the next [>];
    a [<] with no [>] after it stays. *)
Fixpoint has_gt (s : string) : bool :=
  match s with
  | EmptyString => false
  | String c r => if Ascii.eqb c ">" then true else has_gt r
  end.

Fixpoint strip_tags (s : string) : string :=
  match s with
  | EmptyString => EmptyString
  | String c r =>
      if Ascii.eqb c "<" then (if has_gt r then skip_tag r else s)
      else String c (strip_tags r)
  end
with skip_tag (s : string) : string :=
  match s with
  | EmptyString => EmptyString
  | String c r => if Ascii.eqb c ">" then strip_tags r else skip_tag r
  end.

Definition method_description_of (cost : number) (method : ShippingMethod) : string :=
  let description :=
    match non_empty (method_description method) with
    | Some d => Str.trim (strip_tags d)
    | None =>
        match setting_value method "description" with
        | Some d => Str.trim (strip_tags d)
        | None => ""
        end
    end in
  if (String.length description <? 5)%nat then
    match method_id method with
    | Some "free_shipping" => "Free delivery to your address"
    | Some "flat_rate" =>
        if Num.ltb Num.zero cost then "Fixed rate delivery" else "Standard delivery"
    | Some "local_pickup" => "Pick up from our location"
    | _ => "Delivery service"
    end
  else description.

(** The callback of [enabledMethods.map]. *)
Definition shipping_option (cartTotal : number) (method : ShippingMethod)
    : ShippingOption :=
  let cost := method_cost cartTotal method in
  {| opt_id := method_id method;
     opt_instance_id := instance_id method;
     opt_title := method_title_of method;
     cost := cost;
     description := method_description_of cost method;
     opt_enabled := enabled method |}.

(** [cart_items.reduce((total, item) => total + item.price * item.quantity, 0)] *)
Definition cart_total (items : list CartItem) : number :=
  fold_left (fun total item => Num.add total (Num.mul (price item) (quantity item)))
    items Num.zero.

(** ** The handler of [POST /api/shipping/calculate] *)

Definition calculateShipping (up : Upstream) (body : Body) : response :=
  try_catch
    (zones ← get_zones up;
     match selected_zone up (shipping_address body) zones with
     | None => Throw (Error "No shipping zones available")
     | Some selectedZone =>
         methods ← get_methods up (zone_id selectedZone);
         let enabledMethods := List.filter enabled methods in
         match cart_items body with
         | None => Throw TypeError
         | Some items =>
             let cartTotal := cart_total items in
             Return (Json200 (List.map (shipping_option cartTotal) enabledMethods)
                       selectedZone)
         end
     end)
    (fun error => Json500 "Failed to calculate shipping" error).

(** * The product endpoints *)

(** ** [parseInt] *)

Module IntStr.

Import Str.
Local Open Scope char_scope.

(** The longest prefix of digits of the radix. *)
Fixpoint radix_prefix (radix : Z) (s : string) : string :=
  match s with
  | String c r =>
      match NumStr.radix_digit radix c with
      | Some _ => String c (radix_prefix radix r)
      | None => EmptyString
      end
  | EmptyString => EmptyString
  end.

(** [parseInt(s)] with no radix: leading white space, a sign, a [0x] or
    [0X] prefix for radix 16, then the digits up to the first character
    that is none; [NaN] without a digit. The integer is rounded to the
    nearest number. *)
Definition parseInt (s : string) : number :=
  let s := trim_start s in
  let '(neg, s) :=
    match s with
    | String "+" r => (false, r)
    | String "-" r => (true, r)
    | _ => (false, s)
    end in
  let '(radix, s) :=
    match s with
    | String "0" (String c r) =>
        if Ascii.eqb c "x" || Ascii.eqb c "X" then (16%Z, r) else (10%Z, s)
    | _ => (10%Z, s)
    end in
  match radix_prefix radix s with
  | EmptyString => Num.nan
  | ds =>
      match NumStr.radix_value radix 0%Z ds with
      | Some n =>
          if (n =? 0)%Z then S754_zero neg
          else binary_normalize Num.prec Num.emax
                 (if neg then (- n)%Z else n) 0 false
      | None => Num.nan
      end
  end.

End IntStr.

Definition parseInt := IntStr.parseInt.

(** ** The catalogue calls *)

(** The body of an upstream answer: an array of products, or something
    else. *)
Inductive payload :=
  | Array (items : list value)
  | Other (v : value).

Record ProductsResponse := {
  resp_data : payload;
  resp_headers : gmap string string
}.

(** The product calls of the upstream API: [/products/:id], whose answer
    is a body, and [/products] with its query parameters. *)
Record Catalog := {
  get_product : string -> result value;
  get_products : gmap string prim -> result ProductsResponse
}.

(** An answer of a product endpoint: [res.json(body)], or
    [res.status(400)] or [res.status(500)] with an error and a message. *)
Inductive answer (A : Type) :=
  | Answer200 (body : A)
  | Answer400 (tag message : string)
  | Answer500 (tag : string) (cause : error).

Arguments Answer200 {A} body.
Arguments Answer400 {A} tag message.
Arguments Answer500 {A} tag cause.

(** [xs.map(f)] for a callback that may throw. *)
Fixpoint map_m {A B : Type} (f : A -> result B) (xs : list A)
    : result (list B) :=
  match xs with
  | [] => Return []
  | x :: rest =>
      y ← f x;
      ys ← map_m f rest;
      Return (y :: ys)
  end.

(** [response.headers[key] || '0'] *)
Definition header_or_zero (response : ProductsResponse) (key : string) : string :=
  match resp_headers response !! key with
  | Some h => if String.eqb h "" then "0" else h
  | None => "0"
  end.

(** A query parameter, with the default of the destructuring when it is
    not there. *)
Definition param_or (query : gmap string string) (key : string) (d : Z) : prim :=
  match query !! key with
  | Some v => Str v
  | None => Number (Num.of_Z d)
  end.

(** ** [GET /api/products] *)

Record ProductPage (A : Type) := {
  products : A;
  total : number;
  totalPages : number
}.

Arguments products {A} _.
Arguments total {A} _.
Arguments totalPages {A} _.

(** [{ page, per_page, ...req.query }]: the spread comes last and wins. *)
Definition list_params (query : gmap string string) : gmap string prim :=
  (Str <$> query)
  ∪ {[ "page" := param_or query "page" 1;
       "per_page" := param_or query "per_page" 10 ]}.

Definition listProducts (catalog : Catalog) (query : gmap string string)
    : answer (ProductPage payload) :=
  try_catch
    (response ← get_products catalog (list_params query);
     data ←
       match resp_data response with
       | Array items =>
           items ← map_m parseStockInfo items;
           Return (Array items)
       | Other v => Return (Other v)
       end;
     Return (Answer200
               {| products := data;
                  total := parseInt (header_or_zero response "x-wp-total");
                  totalPages :=
                    parseInt (header_or_zero response "x-wp-totalpages") |}))
    (fun error => Answer500 "Failed to fetch products" error).

(** ** [GET /api/products/featured] *)

Definition featured_params (query : gmap string string) : gmap string prim :=
  {[ "featured" := Bool true; "per_page" := param_or query "per_page" 6 ]}.

Definition featuredProducts (catalog : Catalog) (query : gmap string string)
    : answer (ProductPage (list value)) :=
  try_catch
    (response ← get_products catalog (featured_params query);
     products ←
       match resp_data response with
       | Array items => map_m parseStockInfo items
       | Other _ => Return []
       end;
     Return (Answer200
               {| products := products;
                  total := parseInt (header_or_zero response "x-wp-total");
                  totalPages :=
                    parseInt (header_or_zero response "x-wp-totalpages") |}))
    (fun error => Answer500 "Failed to fetch featured products" error).

(** ** [GET /api/products/:id] *)

(** The handler logs [product.stock_quantity] and [product.stock_status]
    before it answers; the two reads are part of the [try] block. *)
Definition getProduct (catalog : Catalog) (id : string) : answer value :=
  try_catch
    (data ← get_product catalog id;
     product ← parseStockInfo data;
     _ ← get product "stock_quantity";
     _ ← get product "stock_status";
     Return (Answer200 product))
    (fun error => Answer500 "Failed to fetch product details" error).

(** ** [GET /api/related-products] *)

(** [{ category: category_id, exclude: product_id, per_page }]; a
    parameter that is [undefined] is not sent. *)
Definition related_params (query : gmap string string) (category_id : string)
    : gmap string prim :=
  let params : gmap string prim :=
    {[ "category" := Str category_id;
       "per_page" := param_or query "per_page" 3 ]} in
  match query !! "product_id" with
  | Some product_id => <["exclude" := Str product_id]> params
  | None => params
  end.

Definition relatedProducts (catalog : Catalog) (query : gmap string string)
    : answer (list value) :=
  try_catch
    (match non_empty (query !! "category_id") with
     | None =>
         Return (Answer400 "Missing category_id parameter"
                   "A category ID is required to fetch related products")
     | Some category_id =>
         response ← get_products catalog (related_params query category_id);
         products ←
           match resp_data response with
           | Array items => map_m parseStockInfo items
           | Other _ => Return []
           end;
         Return (Answer200 products)
     end)
    (fun _ => Answer200 []).

(** * The order and payment endpoints *)

(** ** JSON trees

    The bodies of these two endpoints are nested: a JSON value is a
    primitive, an array, or an object, which keeps its properties in
    order. *)

#[local] Unset Elimination Schemes.

Inductive json :=
  | JNull
  | JBool (b : bool)
  | JNum (n : number)
  | JStr (s : string)
  | JArr (items : list json)
  | JObj (fields : list (string * json)).

#[local] Set Elimination Schemes.

(** [o[k]] on the properties of an object; [None] is [undefined]. *)
Fixpoint lookup_field (fields : list (string * json)) (k : string) : option json :=
  match fields with
  | [] => None
  | (k', v) :: rest => if String.eqb k' k then Some v else lookup_field rest k
  end.

(** [o[k] = v]: a property that is there keeps its place, a new one goes
    last. *)
Fixpoint set_field (fields : list (string * json)) (k : string) (v : json)
    : list (string * json) :=
  match fields with
  | [] => [(k, v)]
  | (k', v') :: rest =>
      if String.eqb k' k then (k, v) :: rest
      else (k', v') :: set_field rest k v
  end.

(** [j.k] for the property names the handlers read, none of which a
    string, a number, a boolean or an array has. On [null] the read
    throws. *)
Definition json_get (j : json) (k : string) : result (option json) :=
  match j with
  | JNull => Throw TypeError
  | JObj fields => Return (lookup_field fields k)
  | _ => Return None
  end.

(** [j.k = v] on a value that is no primitive. *)
Definition json_set (j : json) (k : string) (v : json) : json :=
  match j with
  | JObj fields => JObj (set_field fields k v)
  | _ => j
  end.

Definition json_truthy (j : json) : bool :=
  match j with
  | JNull => false
  | JBool b => b
  | JNum n => Num.truthy n
  | JStr s => negb (String.eqb s "")
  | JArr _ | JObj _ => true
  end.

(** The truthiness of what a property read gives. *)
Definition read_truthy (v : option json) : bool :=
  from_option json_truthy false v.

(** [JSON.parse(JSON.stringify(j))]: a number that is not finite comes
    back as [null] and [-0] as [0]; every other number is printed with
    the digits that read back as the same number. *)
Fixpoint clone (j : json) : json :=
  match j with
  | JNum n =>
      if Num.is_finite n
      then (if Num.eqb n Num.zero then JNum Num.zero else JNum n)
      else JNull
  | JArr items => JArr (List.map clone items)
  | JObj fields => JObj (List.map (fun kv => (fst kv, clone (snd kv))) fields)
  | _ => j
  end.

(** [{ ...j }]: the own properties of an object, the elements of an array
    or the characters of a string under their indices, and nothing for
    another value or for [undefined]. *)
Definition spread (v : option json) : json :=
  match v with
  | Some (JObj fields) => JObj fields
  | Some (JArr items) => JObj (imap (fun i x => (pretty i, x)) items)
  | Some (JStr s) =>
      JObj (imap (fun i c => (pretty i, JStr (String c EmptyString)))
              (list_ascii_of_string s))
  | _ => JObj []
  end.

(** [s.includes(pattern)] on strings. *)
Fixpoint contains (pattern s : string) : bool :=
  match Str.strip_prefix pattern s with
  | Some _ => true
  | None =>
      match s with
      | String _ r => contains pattern r
      | EmptyString => false
      end
  end.

(** [message.includes('Circular Reference')]: the method of a string or of
    an array; on any other truthy value there is no such method to
    call. *)
Definition includes_marker (message : json) : result bool :=
  match message with
  | JStr s => Return (contains "Circular Reference" s)
  | JArr items =>
      Return (existsb (fun x => match x with
                                | JStr "Circular Reference" => true
                                | _ => false
                                end) items)
  | _ => Throw TypeError
  end.

(** ** [POST /api/orders] *)

(** An error of the upstream call: its [message] and, when upstream
    answered, [error.response.data]. *)
Record ApiError := {
  api_message : string;
  api_response_data : option json
}.

Inductive outcome :=
  | Done (data : json)
  | Failed (e : ApiError).

(** The [message] of a 500 answer: a value taken from upstream's answer or
    from the upstream error, or the text of an error of the engine. *)
Inductive message_text :=
  | Text (j : json)
  | EngineText.

Inductive order_answer :=
  | Order200 (order : json)
  | Order500 (tag : string) (message : message_text).

(** The test on [orderData.shipping], with its short-circuits. *)
Definition has_circular_shipping (orderData : json) : result bool :=
  shipping ← json_get orderData "shipping";
  match shipping with
  | Some shipping =>
      if json_truthy shipping then
        message ← json_get shipping "message";
        match message with
        | Some message =>
            if json_truthy message then includes_marker message
            else Return false
        | None => Return false
        end
      else Return false
  | None => Return false
  end.

(** The order that goes upstream. *)
Definition prepare_order (body : json) : result json :=
  let orderData := clone body in
  circular ← has_circular_shipping orderData;
  if circular : bool then
    billing ← json_get orderData "billing";
    Return (json_set orderData "shipping" (spread billing))
  else Return orderData.

(** [error.response.data.message || error.message] when upstream
    answered, else [error.message]. *)
Definition error_message (e : ApiError) : json :=
  match api_response_data e with
  | Some data =>
      if json_truthy data then
        match try_catch (json_get data "message") (fun _ => None) with
        | Some m => if json_truthy m then m else JStr (api_message e)
        | None => JStr (api_message e)
        end
      else JStr (api_message e)
  | None => JStr (api_message e)
  end.

(** The answer once the upstream call has returned; the handler logs
    [response.data.id] before it answers. *)
Definition order_reply (o : outcome) : order_answer :=
  match o with
  | Done data =>
      match json_get data "id" with
      | Return _ => Order200 data
      | Throw _ => Order500 "Failed to create order" EngineText
      end
  | Failed e => Order500 "Failed to create order" (Text (error_message e))
  end.

Definition createOrder (post_order : json -> outcome) (body : json) : order_answer :=
  match prepare_order body with
  | Return orderData => order_reply (post_order orderData)
  | Throw _ => Order500 "Failed to create order" EngineText
  end.

(** ** [GET /api/payment-gateways] *)

(** [xs.filter(p)] for a callback that may throw. *)
Fixpoint filter_m {A : Type} (p : A -> result bool) (xs : list A)
    : result (list A) :=
  match xs with
  | [] => Return []
  | x :: rest =>
      b ← p x;
      ys ← filter_m p rest;
      Return (if b : bool then x :: ys else ys)
  end.

(** [gateway.enabled === true] *)
Definition gateway_enabled (gateway : json) : result bool :=
  e ← json_get gateway "enabled";
  Return (match e with Some (JBool true) => true | _ => false end).

Definition paymentGateways (get_gateways : result json) : answer (list json) :=
  try_catch
    (data ← get_gateways;
     match data with
     | JArr gateways =>
         enabledGateways ← filter_m gateway_enabled gateways;
         Return (Answer200 enabledGateways)
     | _ => Throw TypeError
     end)
    (fun error => Answer500 "Failed to fetch payment gateways" error).

(** * Specification vocabulary *)

(** ** Stock quantities *)

(** The quantity the normaliser starts from: the coercion of the field,
    and 0 when the field is not there. *)
Definition coerced_quantity (o : gmap string prim) : number :=
  match o !! "stock_quantity" with
  | None | Some Undefined => Num.zero
  | Some q => to_number q
  end.

Definition in_stock (o : gmap string prim) : bool :=
  strict_eq (default Undefined (o !! "stock_status")) (Str "instock").

(** The quantity it ends with: 1 in place of a 0 that is in stock. *)
Definition normalized_quantity (o : gmap string prim) : number :=
  if Num.eqb (coerced_quantity o) Num.zero && in_stock o
  then Num.one else coerced_quantity o.

(** ** Zones *)

(** [x] is the first element of the list that satisfies [P]. *)
Inductive first_where {A : Type} (P : A -> Prop) : list A -> A -> Prop :=
  | first_where_intro pre x post :
      Forall (fun y => ~ P y) pre -> P x -> first_where P (pre ++ x :: post) x.

(** The zone has, in the location list upstream returns for it, a location
    of type "country" whose code is [c]. *)
Definition covers (up : Upstream) (c : string) (zone : ShippingZone) : Prop :=
  exists locations location,
    get_locations up (zone_id zone) = Return locations
    /\ location ∈ locations
    /\ loc_type location = "country"
    /\ code location = c.

(** The fallback chain: the first zone that does not bear the catch-all
    name, else the first zone. *)
Inductive falls_back (zones : list ShippingZone) : ShippingZone -> Prop :=
  | falls_back_named z :
      first_where (fun y => name y <> catch_all_name) zones z ->
      falls_back zones z
  | falls_back_first z :
      Forall (fun y => name y = catch_all_name) zones ->
      head zones = Some z ->
      falls_back zones z.

(** Resolution for the country [c]: the first zone that covers it, else
    the fallback chain. *)
Inductive resolves (up : Upstream) (c : string) (zones : list ShippingZone)
    : ShippingZone -> Prop :=
  | resolves_country z :
      first_where (covers up c) zones z -> resolves up c zones z
  | resolves_fallback z :
      Forall (fun y => ~ covers up c y) zones ->
      falls_back zones z ->
      resolves up c zones z.


(** The upstream API with the answer to one zone's location call
    replaced. *)
Definition with_locations (up : Upstream) (k : Z) (r : result (list Location))
    : Upstream :=
  {| get_zones := get_zones up;
     get_locations := fun k' => if decide (k' = k) then r else get_locations up k';
     get_methods := get_methods up |}.

(** ** Costs *)

Definition min_amount_entry (method : ShippingMethod) : option Setting :=
  st ← settings method; st !! "min_amount".

(** The cost rule, one case per format of the cost string. The rule is
    stated for a reading [percentage_of] of the percentage in a string that
    contains [%]. *)
Inductive cost_rule (percentage_of : string -> number) (cartTotal : number)
    (method : ShippingMethod) : number -> Prop :=
  | cost_none :
      setting_value method "cost" = None ->
      cost_rule percentage_of cartTotal method Num.zero
  | cost_percentage s :
      setting_value method "cost" = Some s ->
      Str.includes "%" s = true ->
      cost_rule percentage_of cartTotal method
        (Num.div (Num.mul cartTotal (percentage_of s)) Num.hundred)
  | cost_min_amount s entry :
      setting_value method "cost" = Some s ->
      Str.includes "%" s = false ->
      s = "min_amount" ->
      min_amount_entry method = Some entry ->
      cost_rule percentage_of cartTotal method (parseFloat_value (value_of entry))
  | cost_min_amount_absent s :
      setting_value method "cost" = Some s ->
      Str.includes "%" s = false ->
      s = "min_amount" ->
      min_amount_entry method = None ->
      cost_rule percentage_of cartTotal method Num.zero
  | cost_flat s :
      setting_value method "cost" = Some s ->
      Str.includes "%" s = false ->
      s <> "min_amount" ->
      Num.truthy (parseFloat s) = true ->
      cost_rule percentage_of cartTotal method (parseFloat s)
  | cost_flat_default s :
      setting_value method "cost" = Some s ->
      Str.includes "%" s = false ->
      s <> "min_amount" ->
      Num.truthy (parseFloat s) = false ->
      cost_rule percentage_of cartTotal method Num.zero.

(** The percentage as the spec words it: the leading numeric part of the
    string. *)
Definition leading_percentage (s : string) : number := parseFloat s.

(** The percentage as the code reads it: the leading numeric part of what
    is left once the first [%] is removed. *)
Definition stripped_percentage (s : string) : number :=
  parseFloat (Str.remove_first "%" s).

(** The number a method's cost configuration parses to, when it has one. *)
Definition configured_amount (method : ShippingMethod) : option number :=
  match setting_value method "cost" with
  | Some s =>
      if Str.includes "%" s then Some (stripped_percentage s)
      else if String.eqb s "min_amount" then
        (fun entry => parseFloat_value (value_of entry)) <$> min_amount_entry method
      else Some (parseFloat s)
  | None => None
  end.

(** [0 <= x] *)
Definition nonneg (x : number) : bool := Num.leb Num.zero x.

(** The configured amount, when there is one, is a finite number and not
    negative. *)
Definition amount_nonneg (method : ShippingMethod) : bool :=
  match configured_amount method with
  | Some n => Num.is_finite n && nonneg n
  | None => true
  end.

(** ** Strings of digits and text without tags *)

(** Every character is a decimal digit. *)
Fixpoint all_digits (s : string) : bool :=
  match s with
  | EmptyString => true
  | String c r => Str.is_digit c && all_digits r
  end.

(** No [<] of the string has a [>] after it: the string holds no tag. *)
Fixpoint tag_free (s : string) : bool :=
  match s with
  | EmptyString => true
  | String c r => (if Ascii.eqb c "<" then negb (has_gt r) else true) && tag_free r
  end.

(** The value of [settings.title.value], empty or not. *)
Definition custom_title (method : ShippingMethod) : option string :=
  st ← settings method; entry ← st !! "title"; value_of entry.

(** The first string of the list that is there and not empty. *)
Definition first_non_empty (candidates : list (option string)) : option string :=
  head (omap non_empty candidates).

(** The number [x] is the whole number [n], with nothing lost to
    rounding: zero for 0, and else a positive mantissa [m] and an exponent
    [e <= 0] with [m = n * 2 ^ (- e)]. *)
Definition is_whole (x : number) (n : Z) : Prop :=
  match x with
  | S754_zero _ => n = 0%Z
  | S754_finite false m e => (e <= 0)%Z /\ Zpos m = (n * 2 ^ (- e))%Z
  | _ => False
  end.

(** A price or a quantity that is a finite number and not negative. *)
Definition plain_amount (x : number) : bool := Num.is_finite x && nonneg x.

(** ** Normalised products *)

(** What [parseStockInfo] makes of a value: a record gets its normalised
    quantity, anything else stays. *)
Definition normalized (v : value) : value :=
  match v with
  | Object o => Object (<["stock_quantity" := Number (normalized_quantity o)]> o)
  | Prim p => Prim p
  end.

(** The products of an answer, for an upstream body: the normalised items
    of an array, and no product for a body that is no array. *)
Definition normalized_items (data : payload) : list value :=
  match data with
  | Array items => List.map normalized items
  | Other _ => []
  end.

(** ** Orders and gateways *)

(** The properties of an object after the JSON round trip. *)
Definition clone_fields (fields : list (string * json)) : list (string * json) :=
  List.map (fun kv => (fst kv, clone (snd kv))) fields.


(** The shipping address is missing or no object, or it has no message,
    or a message that is a string without the marker. *)
Definition plain_shipping (fields : list (string * json)) : bool :=
  match lookup_field fields "shipping" with
  | Some (JObj shipping) =>
      match lookup_field shipping "message" with
      | Some (JStr s) => negb (contains "Circular Reference" s)
      | Some _ => false
      | None => true
      end
  | _ => true
  end.

(** A message that is truthy after the JSON round trip and has no
    [includes] method: [true], a finite number other than 0, or an
    object. *)
Definition uncallable_message (m : json) : bool :=
  match m with
  | JBool b => b
  | JNum n => Num.is_finite n && Num.truthy n
  | JObj _ => true
  | _ => false
  end.

(** The gateway is an object whose [enabled] is the boolean [true]. *)
Definition enabled_flag (gateway : json) : bool :=
  match gateway with
  | JObj fields =>
      match lookup_field fields "enabled" with
      | Some (JBool true) => true
      | _ => false
      end
  | _ => false
  end.

Definition is_null (j : json) : bool :=
  match j with JNull => true | _ => false end.

(** * Sample data *)

Module Sample.

(** A product on backorder: three units owed. *)
Definition backordered : gmap string prim :=
  {[ "stock_quantity" := Number (Num.of_Z (-3));
     "stock_status" := Str "onbackorder" ]}.

Definition method_with (id : string) (st : gmap string Setting) : ShippingMethod :=
  {| method_id := Some id;
     method_title := Some "Delivery";
     title := None;
     instance_id := 1;
     enabled := true;
     settings := Some st;
     method_description := None |}.

Definition cost_of (s : string) : gmap string Setting :=
  {[ "cost" := {| value_of := Some s |} ]}.

Definition europe : ShippingZone := {| zone_id := 1; name := "EU" |}.
Definition elsewhere : ShippingZone := {| zone_id := 2; name := "Rest of World" |}.

(** Two zones, the first one covering Germany, and one method for every
    zone. *)
Definition shop (method : ShippingMethod) : Upstream :=
  {| get_zones := Return [europe; elsewhere];
     get_locations := fun k =>
       if (k =? 1)%Z then Return [ {| loc_type := "country"; code := "DE" |} ]
       else Return [];
     get_methods := fun _ => Return [method] |}.

(** The same shop when the location call for the first zone fails. *)
Definition shop_down (method : ShippingMethod) : Upstream :=
  with_locations (shop method) 1 (Throw (RequestFailed "timeout")).

(** A shop with no zone at all. *)
Definition empty_shop : Upstream :=
  {| get_zones := Return [];
     get_locations := fun _ => Return [];
     get_methods := fun _ => Return [] |}.

(** Two items at 10. *)
Definition cart : list CartItem :=
  [ {| price := Num.of_Z 10; quantity := Num.of_Z 2 |} ].

Definition request (c : option string) : Body :=
  {| cart_items := Some cart;
     shipping_address := Some {| country := c |} |}.

End Sample.

Module SampleOrders.

Definition billing : json :=
  JObj [ ("first_name", JStr "Ada"); ("country", JStr "DE") ].

(** An order whose shipping address was lost to a circular reference on
    the client. *)
Definition marked_order : list (string * json) :=
  [ ("payment_method", JStr "bacs");
    ("billing", billing);
    ("shipping", JObj [ ("message", JStr "[Circular Reference]") ]);
    ("line_items", JArr [ JObj [ ("product_id", JNum (Num.of_Z 7));
                                 ("quantity", JNum (Num.of_Z 2)) ] ]) ].

(** An order with a shipping address of its own. *)
Definition plain_order : list (string * json) :=
  [ ("billing", billing);
    ("shipping", JObj [ ("first_name", JStr "Ada"); ("country", JStr "FR") ]) ].

(** An order whose shipping message is a number. *)
Definition odd_order : list (string * json) :=
  [ ("shipping", JObj [ ("message", JNum (Num.of_Z 5)) ]) ].

(** Upstream accepts every order and numbers it 1. *)
Definition accept (order : json) : outcome :=
  Done (json_set order "id" (JNum (Num.of_Z 1))).

(** Upstream rejects every order with a message of its own. *)
Definition reject (order : json) : outcome :=
  Failed {| api_message := "Request failed with status code 400";
            api_response_data :=
              Some (JObj [ ("code", JStr "invalid_email");
                           ("message", JStr "Invalid billing email") ]) |}.

Definition gateways : list json :=
  [ JObj [ ("id", JStr "bacs"); ("enabled", JBool true) ];
    JObj [ ("id", JStr "cheque"); ("enabled", JBool false) ];
    JObj [ ("id", JStr "cod"); ("enabled", JStr "yes") ] ].

Definition page : ProductsResponse :=
  {| resp_data := Array [ Object {[ "stock_status" := Str "instock" ]} ];
     resp_headers := {[ "x-wp-total" := "57" ]} |}.

Definition catalog : Catalog :=
  {| get_product := fun _ => Return (Prim Null);
     get_products := fun _ => Return page |}.

End SampleOrders.

(** * Properties *)

(** ** The stock normaliser *)

Section StockNormaliser.

Implicit Types (o : gmap string prim) (product : value).

(** The second half of the function, from the re-read of the quantity. *)
Lemma parseStockInfo_finish o (n : number) :
  (let product := Object (<["stock_quantity" := Number n]> o) in
   q ← get product "stock_quantity";
   if strict_eq q (Number Num.zero)
   then
     status ← get product "stock_status";
     if strict_eq status (Str "instock")
     then set product "stock_quantity" (Number Num.one)
     else Return product
   else Return product)
  = Return (Object (<["stock_quantity" :=
                       Number (if Num.eqb n Num.zero && in_stock o
                               then Num.one else n)]> o)).
Proof.
  unfold in_stock. cbn [get set mbind result_bind].
  rewrite lookup_insert_eq, lookup_insert_ne by discriminate.
  cbn [default from_option id strict_eq].
  destruct (Num.eqb n Num.zero); cbn [andb]; [|reflexivity].
  destruct (strict_eq _ _); [|reflexivity].
  now rewrite insert_insert_eq.
Qed.

Lemma parseStockInfo_object o :
  parseStockInfo (Object o)
  = Return (Object (<["stock_quantity" := Number (normalized_quantity o)]> o)).
Proof.
  unfold parseStockInfo, normalized_quantity, coerced_quantity.
  cbn [truthy negb get mbind result_bind].
  destruct (o !! "stock_quantity") as [q|] eqn:Hq;
    cbn [default from_option id];
    [destruct q|];
    cbn [strict_eq negb set to_number mbind result_bind];
    apply parseStockInfo_finish.
Qed.

Lemma parseStockInfo_prim (p : prim) :
  parseStockInfo (Prim p) = Return (Prim p).
Proof.
  unfold parseStockInfo. destruct p as [| |b|n|s]; try reflexivity.
  - now destruct b.
  - cbn [truthy truthy_prim]. now destruct (Num.truthy n).
  - cbn [truthy truthy_prim]. now destruct (negb (String.eqb s "")).
Qed.

Lemma coerced_quantity_insert o (n : number) :
  coerced_quantity (<["stock_quantity" := Number n]> o) = n.
Proof. unfold coerced_quantity. now rewrite lookup_insert_eq. Qed.

Lemma in_stock_insert o (n : number) :
  in_stock (<["stock_quantity" := Number n]> o) = in_stock o.
Proof. unfold in_stock. now rewrite lookup_insert_ne. Qed.

Lemma normalized_quantity_fixed o :
  normalized_quantity (<["stock_quantity" := Number (normalized_quantity o)]> o)
  = normalized_quantity o.
Proof.
  unfold normalized_quantity at 1.
  rewrite coerced_quantity_insert, in_stock_insert.
  unfold normalized_quantity.
  destruct (Num.eqb (coerced_quantity o) Num.zero) eqn:Hz;
    destruct (in_stock o); cbn [andb]; rewrite ?Hz; try reflexivity.
Qed.

End StockNormaliser.

Section StockNormaliserClaims.

(** C3, as amended. For every product record, [parseStockInfo] returns the
    record with [stock_quantity] set to a number: the coercion of the
    original field, 0 when the field is missing, and 1 when that quantity
    is 0 while [stock_status] is "instock". The result is not negative when
    the coerced quantity is not, and no other field changes. *)
Theorem parseStockInfo_quantity (o : gmap string prim) :
  exists o',
    parseStockInfo (Object o) = Return (Object o')
    /\ o' !! "stock_quantity" = Some (Number (normalized_quantity o))
    /\ implb (nonneg (coerced_quantity o)) (nonneg (normalized_quantity o)) = true
    /\ delete "stock_quantity" o' = delete "stock_quantity" o.
Proof.
  eexists. split; [apply parseStockInfo_object|].
  split; [apply lookup_insert_eq|].
  split; [|apply delete_insert_eq].
  unfold normalized_quantity.
  destruct (Num.eqb (coerced_quantity o) Num.zero && in_stock o).
  - now destruct (nonneg (coerced_quantity o)).
  - now destruct (nonneg (coerced_quantity o)).
Qed.

(** C3 as stated fails: a quantity of -3 stays -3, which is a number below
    zero. *)
Lemma parseStockInfo_negative_quantity :
  ~ exists o' n,
      parseStockInfo (Object Sample.backordered) = Return (Object o')
      /\ o' !! "stock_quantity" = Some (Number n)
      /\ nonneg n = true.
Proof.
  intros (o' & n & Hrun & Hq & Hn).
  rewrite parseStockInfo_object in Hrun.
  injection Hrun as <-.
  rewrite lookup_insert_eq in Hq.
  injection Hq as <-.
  vm_compute in Hn. discriminate.
Qed.

(** C8. [parseStockInfo] returns a value on every input, running it again
    on that value returns the same value, and [undefined] and [null] come
    back as they are. *)
Theorem parseStockInfo_idempotent (product : value) :
  (exists product',
     parseStockInfo product = Return product'
     /\ parseStockInfo product' = Return product')
  /\ parseStockInfo (Prim Undefined) = Return (Prim Undefined)
  /\ parseStockInfo (Prim Null) = Return (Prim Null).
Proof.
  split; [|split; reflexivity].
  destruct product as [p|o].
  - exists (Prim p). split; apply parseStockInfo_prim.
  - eexists. split; [apply parseStockInfo_object|].
    rewrite parseStockInfo_object, insert_insert_eq.
    now rewrite normalized_quantity_fixed.
Qed.

End StockNormaliserClaims.

(** ** Zone selection *)

Section FirstWhere.

Context {A : Type}.
Implicit Types (P Q : A -> Prop) (l : list A).

Lemma first_where_head P x l : P x -> first_where P (x :: l) x.
Proof. intros Hx. now apply (first_where_intro P [] x l). Qed.

Lemma first_where_cons P y x l :
  ~ P y -> first_where P l x -> first_where P (y :: l) x.
Proof.
  intros Hy [pre x' post Hpre Hx].
  apply (first_where_intro P (y :: pre) x' post); [|assumption].
  now constructor.
Qed.

Lemma first_where_iff P Q l x :
  (forall y, P y <-> Q y) -> first_where P l x -> first_where Q l x.
Proof.
  intros HPQ [pre x' post Hpre Hx]. constructor.
  - eapply Forall_impl; [exact Hpre|]. intros y Hy HQ. now apply Hy, HPQ.
  - now apply HPQ.
Qed.

(** [List.find] returns the first element that passes the test. *)
Lemma find_first (p : A -> bool) l :
  match List.find p l with
  | Some x => first_where (fun y => p y = true) l x
  | None => Forall (fun y => p y <> true) l
  end.
Proof.
  induction l as [|y l IH]; cbn [List.find]; [constructor|].
  destruct (p y) eqn:Hy; [now apply first_where_head|].
  destruct (List.find p l).
  - apply first_where_cons; [congruence|assumption].
  - constructor; [congruence|assumption].
Qed.

End FirstWhere.

Section ZoneSelection.

Variable up : Upstream.

(** With an address, the callback of [find] never throws. *)
Lemma country_matches_address (a : ShippingAddress) (l : Location) :
  exists b,
    country_matches (Some a) l = Return b
    /\ (b = true <-> loc_type l = "country" /\ country a = Some (code l)).
Proof.
  unfold country_matches.
  destruct (String.eqb (loc_type l) "country") eqn:Hty.
  - apply String.eqb_eq in Hty. destruct (country a) as [c|].
    + eexists. split; [reflexivity|]. rewrite String.eqb_eq.
      split; [intros ->; now split|now intros [_ [= ->]]].
    + exists false. split; [reflexivity|]. split; [discriminate|now intros [_ [=]]].
  - apply String.eqb_neq in Hty.
    exists false. split; [reflexivity|]. split; [discriminate|now intros [? _]].
Qed.

Lemma find_m_address (a : ShippingAddress) (locations : list Location) :
  exists found,
    find_m (country_matches (Some a)) locations = Return found
    /\ (is_Some found <->
        exists location, location ∈ locations
          /\ loc_type location = "country"
          /\ country a = Some (code location)).
Proof.
  induction locations as [|l locations (found & Hrun & Hfound)];
    cbn [find_m].
  - exists None. split; [reflexivity|]. split.
    + intros [? [=]].
    + intros (? & Hin & _). now apply elem_of_nil in Hin.
  - destruct (country_matches_address a l) as (b & -> & Hb).
    cbn [mbind result_bind]. destruct b.
    + exists (Some l). split; [reflexivity|]. split; [|eauto].
      intros _. exists l. split; [apply list_elem_of_here|now apply Hb].
    + exists found. split; [assumption|]. rewrite Hfound. split.
      * intros (l' & Hin & H1 & H2). exists l'.
        repeat split; [now apply list_elem_of_further|assumption..].
      * intros (l' & Hin & H1 & H2). exists l'.
        apply elem_of_cons in Hin as [->|Hin]; [|now repeat split].
        assert (false = true) by now apply Hb. discriminate.
Qed.

(** The loop breaks at a zone exactly when the zone covers the country. *)
Lemma zone_covers_iff (a : ShippingAddress) (c : string) (zone : ShippingZone) :
  country a = Some c ->
  try_catch (zone_covers up (Some a) zone) (fun _ => false) = true
  <-> covers up c zone.
Proof.
  intros Hc. unfold zone_covers, covers.
  destruct (get_locations up (zone_id zone)) as [locations|e];
    cbn [mbind result_bind try_catch].
  - destruct (find_m_address a locations) as (found & -> & Hfound).
    cbn [mbind result_bind try_catch]. rewrite bool_decide_eq_true, Hfound.
    split.
    + intros (l & Hin & Hty & Hl). exists locations, l.
      repeat split; [assumption..|]. congruence.
    + intros (locations' & l & [= <-] & Hin & Hty & Hl). exists l.
      repeat split; [assumption..|]. congruence.
  - split; [discriminate|]. now intros (? & ? & [=] & _).
Qed.

(** The loop returns the first zone that covers the country. *)
Lemma select_zone_first (a : ShippingAddress) (c : string)
    (zones : list ShippingZone) :
  country a = Some c ->
  match select_zone up (Some a) zones with
  | Some z => first_where (covers up c) zones z
  | None => Forall (fun y => ~ covers up c y) zones
  end.
Proof.
  intros Hc. induction zones as [|zone zones IH]; cbn [select_zone];
    [constructor|].
  pose proof (zone_covers_iff a c zone Hc) as Hz.
  destruct (try_catch _ _).
  - apply first_where_head. now apply Hz.
  - assert (~ covers up c zone) by (intros H; apply Hz in H; discriminate).
    destruct (select_zone up (Some a) zones).
    + now apply first_where_cons.
    + now constructor.
Qed.




(** The fallback of a list that is not empty follows the fallback chain. *)
Lemma fallback_zone_falls_back (zones : list ShippingZone) :
  zones <> [] ->
  exists z, fallback_zone zones = Some z /\ falls_back zones z.
Proof.
  intros Hne. unfold fallback_zone.
  pose proof (find_first
    (fun zone => negb (String.eqb (name zone) catch_all_name)) zones) as H.
  destruct (List.find _ zones) as [z|].
  - exists z. split; [reflexivity|]. apply falls_back_named.
    eapply first_where_iff; [|exact H]. intros y. cbn beta.
    rewrite negb_true_iff, String.eqb_neq. reflexivity.
  - destruct zones as [|z zones]; [contradiction|].
    exists z. split; [reflexivity|]. apply falls_back_first; [|reflexivity].
    eapply Forall_impl; [exact H|]. intros y Hy. cbn beta in Hy.
    destruct (String.eqb (name y) catch_all_name) eqn:E;
      [now apply String.eqb_eq|contradiction].
Qed.

End ZoneSelection.

Section ZoneClaims.

Import Sample.

(** C2. For every list of zones that is not empty and every country code,
    the handler selects the first zone, in upstream order, that has a
    location of type "country" with that code; when no zone has one, the
    first zone whose name is not the catch-all name; and when every zone
    bears that name, the first zone. *)
Theorem selected_zone_resolves (up : Upstream) (c : string)
    (zones : list ShippingZone) :
  zones <> [] ->
  exists z,
    selected_zone up (Some {| country := Some c |}) zones = Some z
    /\ resolves up c zones z.
Proof.
  intros Hne. unfold selected_zone.
  pose proof (select_zone_first up {| country := Some c |} c zones eq_refl) as H.
  destruct (select_zone up _ zones) as [z|].
  - exists z. split; [reflexivity|]. now apply resolves_country.
  - destruct (fallback_zone_falls_back zones Hne) as (z & -> & Hz).
    exists z. split; [reflexivity|]. now apply resolves_fallback.
Qed.

Lemma selected_zone_resolves_sample :
  [europe; elsewhere] <> []
  /\ exists z,
       selected_zone (shop (method_with "flat_rate" (cost_of "10%")))
         (Some {| country := Some "DE" |}) [europe; elsewhere] = Some z
       /\ resolves (shop (method_with "flat_rate" (cost_of "10%"))) "DE"
            [europe; elsewhere] z.
Proof.
  split; [discriminate|].
  apply (selected_zone_resolves
           (shop (method_with "flat_rate" (cost_of "10%"))) "DE"
           [europe; elsewhere]).
  discriminate.
Defined.

(** C4. When upstream returns an empty zone list, the handler answers 500
    with the error "No shipping zones available", and no shipping option. *)
Theorem calculateShipping_no_zones (up : Upstream) (body : Body) :
  get_zones up = Return [] ->
  calculateShipping up body
  = Json500 "Failed to calculate shipping" (Error "No shipping zones available").
Proof. intros Hz. unfold calculateShipping. now rewrite Hz. Qed.

Lemma calculateShipping_no_zones_sample :
  get_zones empty_shop = Return []
  /\ calculateShipping empty_shop (request (Some "DE"))
     = Json500 "Failed to calculate shipping"
         (Error "No shipping zones available").
Proof.
  split; [reflexivity|].
  apply (calculateShipping_no_zones empty_shop (request (Some "DE"))).
  reflexivity.
Defined.

(** A zone whose location call fails and a zone with no location are the
    same to the loop. *)
Lemma select_zone_with_locations (up : Upstream) (k : Z) (e : error)
    (address : option ShippingAddress) (zones : list ShippingZone) :
  get_locations up k = Throw e ->
  select_zone (with_locations up k (Return [])) address zones
  = select_zone up address zones.
Proof.
  intros Hk. induction zones as [|zone zones IH]; cbn [select_zone];
    [reflexivity|].
  rewrite IH. unfold zone_covers. cbn [with_locations get_locations].
  destruct (decide (zone_id zone = k)) as [->|_]; [|reflexivity].
  now rewrite Hk.
Qed.

(** C6. When the location call of a zone fails, the loop skips that zone
    and goes on with the zones after it, and the handler answers as it
    would had the call returned no location. *)
Theorem location_failure_skips_zone (up : Upstream) (zone : ShippingZone)
    (e : error) :
  get_locations up (zone_id zone) = Throw e ->
  (forall address rest,
     select_zone up address (zone :: rest) = select_zone up address rest)
  /\ (forall body,
        calculateShipping up body
        = calculateShipping (with_locations up (zone_id zone) (Return [])) body).
Proof.
  intros Hk. split.
  - intros address rest. cbn [select_zone]. unfold zone_covers.
    now rewrite Hk.
  - intros body. unfold calculateShipping, selected_zone.
    cbn [with_locations get_zones get_methods].
    destruct (get_zones up) as [zones|]; [|reflexivity].
    cbn [mbind result_bind].
    now rewrite (select_zone_with_locations up (zone_id zone) e).
Qed.

Lemma location_failure_skips_zone_sample :
  get_locations (shop_down (method_with "flat_rate" (cost_of "10%")))
    (zone_id europe) = Throw (RequestFailed "timeout")
  /\ select_zone (shop_down (method_with "flat_rate" (cost_of "10%")))
       (Some {| country := Some "DE" |}) [europe; elsewhere]
     = select_zone (shop_down (method_with "flat_rate" (cost_of "10%")))
         (Some {| country := Some "DE" |}) [elsewhere].
Proof.
  split; [reflexivity|].
  apply (location_failure_skips_zone
           (shop_down (method_with "flat_rate" (cost_of "10%"))) europe
           (RequestFailed "timeout")).
  reflexivity.
Defined.




(** C10. When the request body has no [cart_items], the handler answers
    500: whatever upstream returns, and with a [TypeError] from the cart
    total once the zones are fetched, a zone is selected and its methods
    are fetched. *)
Theorem calculateShipping_no_cart_items (up : Upstream) (body : Body) :
  cart_items body = None ->
  exists cause,
    calculateShipping up body = Json500 "Failed to calculate shipping" cause
    /\ (forall zones z methods,
          get_zones up = Return zones ->
          selected_zone up (shipping_address body) zones = Some z ->
          get_methods up (zone_id z) = Return methods ->
          cause = TypeError).
Proof.
  intros Hitems. unfold calculateShipping.
  destruct (get_zones up) as [zones|e] eqn:Hzones;
    cbn [mbind result_bind try_catch].
  - destruct (selected_zone up (shipping_address body) zones) as [z|] eqn:Hsel.
    + destruct (get_methods up (zone_id z)) as [methods|e] eqn:Hm;
        cbn [mbind result_bind try_catch].
      * rewrite Hitems. exists TypeError. split; reflexivity.
      * exists e. split; [reflexivity|].
        intros zones' z' methods' [= <-] Hsel' Hm'. congruence.
    + eexists. split; [reflexivity|].
      intros zones' z' methods' [= <-] Hsel'. congruence.
  - exists e. split; [reflexivity|]. intros zones z methods [=].
Qed.

Lemma calculateShipping_no_cart_items_sample :
  exists cause,
    calculateShipping (shop (method_with "flat_rate" (cost_of "10%")))
      {| cart_items := None; shipping_address := Some {| country := Some "DE" |} |}
    = Json500 "Failed to calculate shipping" cause
    /\ (forall zones z methods,
          get_zones (shop (method_with "flat_rate" (cost_of "10%"))) = Return zones ->
          selected_zone (shop (method_with "flat_rate" (cost_of "10%")))
            (Some {| country := Some "DE" |}) zones = Some z ->
          get_methods (shop (method_with "flat_rate" (cost_of "10%"))) (zone_id z)
          = Return methods ->
          cause = TypeError).
Proof.
  apply (calculateShipping_no_cart_items
           (shop (method_with "flat_rate" (cost_of "10%")))
           {| cart_items := None;
              shipping_address := Some {| country := Some "DE" |} |}).
  reflexivity.
Defined.

End ZoneClaims.

(** ** Signs of products and quotients *)

Section Signs.

Local Open Scope Z_scope.

Lemma iter_pos_invariant {A : Type} (P : A -> Prop) (f : A -> A) :
  (forall x, P x -> P (f x)) ->
  forall (n : positive) (x : A), P x -> P (iter_pos f n x).
Proof.
  intros Hf. induction n as [n IH|n IH|]; intros x Hx; cbn [iter_pos]; auto.
Qed.

Lemma shr_1_nonneg (mrs : shr_record) : 0 <= shr_m mrs -> 0 <= shr_m (shr_1 mrs).
Proof.
  destruct mrs as [m r s]. cbn [shr_m]. intros Hm.
  destruct m as [|[p|p|]|p]; cbn [shr_1 shr_m]; lia.
Qed.

Lemma shr_nonneg (mrs : shr_record) (e n : Z) :
  0 <= shr_m mrs -> 0 <= shr_m (fst (shr mrs e n)).
Proof.
  intros Hm. destruct n as [|p|p]; cbn [shr fst]; try assumption.
  now apply (iter_pos_invariant (fun x => 0 <= shr_m x) shr_1 shr_1_nonneg).
Qed.

Lemma shr_fexp_nonneg (m e : Z) (l : location) :
  0 <= m -> 0 <= shr_m (fst (shr_fexp Num.prec Num.emax m e l)).
Proof.
  intros Hm. unfold shr_fexp. apply shr_nonneg.
  now destruct l as [|[]].
Qed.

Lemma round_nearest_even_nonneg (m : Z) (l : location) :
  0 <= m -> 0 <= round_nearest_even m l.
Proof.
  intros Hm. destruct l as [|[]]; cbn [round_nearest_even]; try lia.
  destruct (Z.even m); lia.
Qed.

(** Rounding a mantissa that is not negative, with a positive sign, gives a
    number that is not negative. *)
Lemma binary_round_aux_nonneg (m e : Z) (l : location) :
  0 <= m -> nonneg (binary_round_aux Num.prec Num.emax false m e l) = true.
Proof.
  intros Hm. unfold binary_round_aux.
  pose proof (shr_fexp_nonneg m e l Hm) as H1.
  destruct (shr_fexp Num.prec Num.emax m e l) as [mrs' e'].
  cbn [fst] in H1.
  pose proof (shr_fexp_nonneg
                (round_nearest_even (shr_m mrs') (loc_of_shr_record mrs'))
                e' loc_Exact (round_nearest_even_nonneg _ _ H1)) as H2.
  destruct (shr_fexp Num.prec Num.emax _ e' loc_Exact) as [mrs'' e''].
  cbn [fst] in H2.
  destruct (shr_m mrs'') as [|p|p]; [reflexivity| |lia].
  now destruct (e'' <=? Num.emax - Num.prec).
Qed.

Lemma mul_nonneg (x y : number) :
  Num.is_finite x = true -> nonneg x = true ->
  Num.is_finite y = true -> nonneg y = true ->
  nonneg (Num.mul x y) = true.
Proof.
  destruct x as [sx|sx| |sx mx ex]; try discriminate;
    destruct y as [sy|sy| |sy my ey]; try discriminate;
    intros _ Hx _ Hy; try reflexivity.
  destruct sx; [discriminate|]. destruct sy; [discriminate|].
  apply binary_round_aux_nonneg. lia.
Qed.

Lemma div_hundred_nonneg (x : number) :
  nonneg x = true -> nonneg (Num.div x Num.hundred) = true.
Proof.
  destruct x as [sx|sx| |sx mx ex]; try discriminate; intros Hx.
  - reflexivity.
  - now destruct sx.
  - destruct sx; [discriminate|].
    unfold Num.div, Num.hundred, SFdiv. cbn [xorb].
    unfold SFdiv_core_binary.
    set (e' := Z.min _ _). set (m' := match _ with 0 => _ | _ => _ end).
    assert (Hm' : 0 <= m').
    { subst m'. destruct (ex - -46 - e'); try lia. apply Z.shiftl_nonneg. lia. }
    pose proof (Z.div_pos m' 7036874417766400 Hm' eq_refl) as Hq.
    unfold Z.div in Hq.
    destruct (Z.div_eucl m' 7036874417766400) as [q r]. cbn [fst] in Hq.
    now apply binary_round_aux_nonneg.
Qed.

End Signs.

(** ** Method costs *)

Section Costs.

Implicit Types (cartTotal : number) (method : ShippingMethod).

(** The cost string the code branches on: there, and not empty. *)
Lemma method_cost_unfold cartTotal method :
  method_cost cartTotal method
  = match setting_value method "cost" with
    | Some s =>
        if Str.includes "%" s then
          Num.div (Num.mul cartTotal (stripped_percentage s)) Num.hundred
        else if String.eqb s "min_amount" then
          match min_amount_entry method with
          | Some entry => parseFloat_value (value_of entry)
          | None => Num.zero
          end
        else if Num.truthy (parseFloat s) then parseFloat s else Num.zero
    | None => Num.zero
    end.
Proof.
  unfold method_cost, setting_value, min_amount_entry, non_empty.
  destruct (settings method) as [st|]; cbn [mbind option_bind]; [|reflexivity].
  destruct (st !! "cost") as [entry|]; cbn [mbind option_bind]; [|reflexivity].
  destruct (value_of entry) as [s|]; [|reflexivity].
  now destruct (String.eqb s "").
Qed.

Lemma method_cost_rule cartTotal method :
  cost_rule stripped_percentage cartTotal method (method_cost cartTotal method).
Proof.
  rewrite method_cost_unfold.
  destruct (setting_value method "cost") as [s|] eqn:Hs;
    [|now apply cost_none].
  destruct (Str.includes "%" s) eqn:Hpct; [now apply cost_percentage|].
  destruct (String.eqb s "min_amount") eqn:Hmin.
  - apply String.eqb_eq in Hmin.
    destruct (min_amount_entry method) as [entry|] eqn:He.
    + now apply (cost_min_amount _ _ _ s entry).
    + now apply (cost_min_amount_absent _ _ _ s).
  - apply String.eqb_neq in Hmin.
    destruct (Num.truthy (parseFloat s)) eqn:Ht.
    + now apply cost_flat.
    + now apply (cost_flat_default _ _ _ s).
Qed.

(** The rule leaves one cost. *)
Lemma cost_rule_functional (percentage_of : string -> number) cartTotal method
    (c c' : number) :
  cost_rule percentage_of cartTotal method c ->
  cost_rule percentage_of cartTotal method c' ->
  c = c'.
Proof.
  intros H H'. destruct H; destruct H'; congruence.
Qed.

Lemma method_cost_nonneg cartTotal method :
  Num.is_finite cartTotal = true ->
  nonneg cartTotal = true ->
  amount_nonneg method = true ->
  nonneg (method_cost cartTotal method) = true.
Proof.
  intros Hfin Hpos. unfold amount_nonneg, configured_amount.
  rewrite method_cost_unfold.
  destruct (setting_value method "cost") as [s|]; [|reflexivity].
  destruct (Str.includes "%" s).
  - intros [Hf Hn]%andb_true_iff.
    now apply div_hundred_nonneg, mul_nonneg.
  - destruct (String.eqb s "min_amount").
    + destruct (min_amount_entry method) as [entry|]; cbn [fmap option_fmap option_map];
        [|reflexivity].
      now intros [_ Hn]%andb_true_iff.
    + intros [_ Hn]%andb_true_iff.
      now destruct (Num.truthy (parseFloat s)).
Qed.

End Costs.

Section CostClaims.

Import Sample.

(** C1, as amended. For every method and every cart total, the cost of the
    method's option follows the cost rule, and nothing else does: no cost
    string, or an empty one, gives 0; a string with a [%] gives the cart
    total times the percentage, divided by 100, where the percentage is the
    leading number of the string once its first [%] is removed; else the
    string "min_amount" gives the min_amount value parsed as a number, or 0
    without a min_amount entry; else the cost is the string parsed as a
    number, or 0 when it parses to no number. *)
Theorem shipping_option_cost_rule (cartTotal : number) (method : ShippingMethod)
    (c : number) :
  cost_rule stripped_percentage cartTotal method c
  <-> c = cost (shipping_option cartTotal method).
Proof.
  cbn [shipping_option cost]. split.
  - intros H. exact (cost_rule_functional _ _ _ _ _ H (method_cost_rule _ _)).
  - intros ->. apply method_cost_rule.
Qed.

(** C1 as stated fails: with the percentage read as the leading number of
    the string itself, "1%5" is 1 percent, and the code charges 15
    percent. *)
Lemma shipping_option_cost_not_leading :
  ~ cost_rule leading_percentage (Num.of_Z 100)
      (method_with "flat_rate" (cost_of "1%5"))
      (cost (shipping_option (Num.of_Z 100)
               (method_with "flat_rate" (cost_of "1%5")))).
Proof.
  intros H.
  assert (H1 : cost_rule leading_percentage (Num.of_Z 100)
                 (method_with "flat_rate" (cost_of "1%5")) (Num.of_Z 1)).
  { exact (cost_percentage leading_percentage (Num.of_Z 100)
             (method_with "flat_rate" (cost_of "1%5")) "1%5" eq_refl eq_refl). }
  pose proof (cost_rule_functional _ _ _ _ _ H H1) as Heq.
  vm_compute in Heq. discriminate.
Qed.

(** C5 fails on the code; the flat branch alone defaults to 0. A
    percentage that parses to no number gives the cost [NaN], and so does a
    min_amount value that parses to no number. *)
Lemma method_cost_unparseable :
  method_cost (Num.of_Z 100) (method_with "flat_rate" (cost_of "abc%")) = Num.nan
  /\ method_cost (Num.of_Z 100)
       (method_with "free_shipping"
          (<["min_amount" := {| value_of := Some "" |}]> (cost_of "min_amount")))
     = Num.nan
  /\ method_cost (Num.of_Z 100) (method_with "flat_rate" (cost_of "abc"))
     = Num.zero.
Proof. repeat split; vm_compute; reflexivity. Qed.

(** C7, as amended. Every option of a 200 answer has a cost that is not
    negative when the cart total is a finite number and not negative and,
    for every enabled method of the zone, the number its cost configuration
    parses to, if any, is finite and not negative. *)
Theorem calculateShipping_cost_nonneg (up : Upstream) (body : Body)
    (items : list CartItem) (methods : list ShippingMethod)
    (options : list ShippingOption) (zone : ShippingZone) :
  calculateShipping up body = Json200 options zone ->
  cart_items body = Some items ->
  get_methods up (zone_id zone) = Return methods ->
  Num.is_finite (cart_total items) = true ->
  nonneg (cart_total items) = true ->
  Forall (fun method => amount_nonneg method = true)
    (List.filter enabled methods) ->
  Forall (fun option => nonneg (cost option) = true) options.
Proof.
  intros Hrun Hitems Hm Hfin Hpos Hall. unfold calculateShipping in Hrun.
  destruct (get_zones up) as [zones|]; [|discriminate].
  cbn [mbind result_bind] in Hrun.
  destruct (selected_zone up (shipping_address body) zones) as [z|];
    [|discriminate].
  destruct (get_methods up (zone_id z)) as [methods'|] eqn:Hm';
    [|discriminate].
  cbn [mbind result_bind] in Hrun. rewrite Hitems in Hrun.
  cbn [try_catch] in Hrun. injection Hrun as <- <-.
  rewrite Hm' in Hm. injection Hm as <-.
  apply Forall_forall. intros option Hin.
  apply list_elem_of_In, in_map_iff in Hin as (method & <- & Hin).
  cbn [shipping_option cost]. apply method_cost_nonneg; [assumption..|].
  rewrite Forall_forall in Hall. now apply Hall, list_elem_of_In.
Qed.

Lemma calculateShipping_cost_nonneg_sample :
  Forall (fun option => nonneg (cost option) = true)
    (List.map (shipping_option (cart_total cart))
       (List.filter enabled [method_with "flat_rate" (cost_of "10%")])).
Proof.
  apply (calculateShipping_cost_nonneg
           (shop (method_with "flat_rate" (cost_of "10%")))
           (request (Some "DE")) cart
           [method_with "flat_rate" (cost_of "10%")] _ europe).
  - reflexivity.
  - reflexivity.
  - reflexivity.
  - reflexivity.
  - reflexivity.
  - repeat constructor.
Defined.

(** C7 as stated fails: a flat cost of "-5" gives an option that costs
    -5. *)
Lemma calculateShipping_negative_cost :
  ~ forall options zone,
      calculateShipping (shop (method_with "flat_rate" (cost_of "-5")))
        (request (Some "DE")) = Json200 options zone ->
      Forall (fun option => nonneg (cost option) = true) options.
Proof.
  intros H.
  specialize (H _ _ eq_refl).
  apply Forall_inv in H. vm_compute in H. discriminate.
Qed.

End CostClaims.

(** ** Worked examples *)

Section WorkedExamples.

Import Sample.

Example parseFloat_decimal : parseFloat "5.50" = Num.div (Num.of_Z 11) (Num.of_Z 2).
Proof. vm_compute. reflexivity. Qed.

Example parseFloat_prefix : parseFloat " 3abc" = Num.of_Z 3.
Proof. vm_compute. reflexivity. Qed.

Example parseFloat_exponent : parseFloat "-.5e1x" = Num.of_Z (-5).
Proof. vm_compute. reflexivity. Qed.

Example parseFloat_no_number :
  parseFloat "abc" = Num.nan /\ parseFloat "" = Num.nan /\ parseFloat "." = Num.nan.
Proof. repeat split. Qed.

Example to_number_strings :
  to_number (Str " 12 ") = Num.of_Z 12
  /\ to_number (Str "0x10") = Num.of_Z 16
  /\ to_number (Str "") = Num.zero
  /\ to_number (Str "12px") = Num.nan.
Proof. repeat split; vm_compute; reflexivity. Qed.

Example example_cost_percent :
  method_cost (Num.of_Z 200) (method_with "flat_rate" (cost_of "10%"))
  = Num.of_Z 20.
Proof. vm_compute. reflexivity. Qed.

Example example_cost_min_amount :
  method_cost (Num.of_Z 200)
    (method_with "free_shipping"
       (<["min_amount" := {| value_of := Some "3" |}]> (cost_of "min_amount")))
  = Num.of_Z 3.
Proof. vm_compute. reflexivity. Qed.

Example example_cost_missing :
  method_cost (Num.of_Z 200) (method_with "flat_rate" ∅) = Num.zero.
Proof. vm_compute. reflexivity. Qed.

Example strip_tags_paragraph :
  Str.trim (strip_tags "<p>Ships in <b>two</b> days</p> ") = "Ships in two days".
Proof. vm_compute. reflexivity. Qed.

Example strip_tags_unclosed : strip_tags "a < b" = "a < b".
Proof. reflexivity. Qed.

Example zone_for_germany :
  selected_zone (shop (method_with "flat_rate" (cost_of "10%")))
    (Some {| country := Some "DE" |}) [europe; elsewhere] = Some europe.
Proof. vm_compute. reflexivity. Qed.

Example zone_for_elsewhere :
  selected_zone (shop (method_with "flat_rate" (cost_of "10%")))
    (Some {| country := Some "US" |}) [europe; elsewhere] = Some europe.
Proof. vm_compute. reflexivity. Qed.

Example zone_when_lookup_fails :
  selected_zone (shop_down (method_with "flat_rate" (cost_of "10%")))
    (Some {| country := Some "DE" |}) [europe; elsewhere] = Some europe.
Proof. vm_compute. reflexivity. Qed.

Example options_for_germany :
  calculateShipping (shop (method_with "flat_rate" (cost_of "10%")))
    (request (Some "DE"))
  = Json200
      [ {| opt_id := Some "flat_rate";
           opt_instance_id := 1;
           opt_title := "Delivery";
           cost := Num.of_Z 2;
           description := "Fixed rate delivery";
           opt_enabled := true |} ]
      europe.
Proof. vm_compute. reflexivity. Qed.

End WorkedExamples.

(** ** More on the handler's answers *)

Section HandlerAnswers.

Import Sample.

Variable up : Upstream.

Lemma select_zone_elem (address : option ShippingAddress)
    (zones : list ShippingZone) (z : ShippingZone) :
  select_zone up address zones = Some z -> z ∈ zones.
Proof.
  induction zones as [|zone zones IH]; cbn [select_zone]; [discriminate|].
  destruct (try_catch _ _).
  - intros [= ->]. apply list_elem_of_here.
  - intros H. apply list_elem_of_further. now apply IH.
Qed.

Lemma fallback_zone_elem (zones : list ShippingZone) (z : ShippingZone) :
  fallback_zone zones = Some z -> z ∈ zones.
Proof.
  unfold fallback_zone.
  destruct (List.find _ zones) as [z'|] eqn:Hfind.
  - intros [= <-]. apply find_some in Hfind as [Hin _].
    now apply list_elem_of_In.
  - destruct zones as [|z' zones]; [discriminate|].
    intros [= <-]. apply list_elem_of_here.
Qed.

Lemma selected_zone_elem (address : option ShippingAddress)
    (zones : list ShippingZone) (z : ShippingZone) :
  selected_zone up address zones = Some z -> z ∈ zones.
Proof.
  unfold selected_zone.
  destruct (select_zone up address zones) as [z'|] eqn:Hsel.
  - intros [= <-]. now apply select_zone_elem in Hsel.
  - apply fallback_zone_elem.
Qed.

(** The handler, step by step, on a 200 answer. *)
Lemma calculateShipping_200 (body : Body) (options : list ShippingOption)
    (zone : ShippingZone) :
  calculateShipping up body = Json200 options zone ->
  exists zones methods items,
    get_zones up = Return zones
    /\ selected_zone up (shipping_address body) zones = Some zone
    /\ get_methods up (zone_id zone) = Return methods
    /\ cart_items body = Some items
    /\ options = List.map (shipping_option (cart_total items))
                   (List.filter enabled methods).
Proof.
  unfold calculateShipping.
  destruct (get_zones up) as [zones|]; [|discriminate].
  cbn [mbind result_bind].
  destruct (selected_zone up (shipping_address body) zones) as [z|] eqn:Hsel;
    [|discriminate].
  destruct (get_methods up (zone_id z)) as [methods|] eqn:Hm; [|discriminate].
  cbn [mbind result_bind].
  destruct (cart_items body) as [items|]; [|discriminate].
  cbn [try_catch]. intros [= <- <-].
  exists zones, methods, items. now repeat split.
Qed.

(** X1. The zone of a 200 answer is one of the zones upstream listed. *)
Theorem calculateShipping_zone_from_upstream (body : Body)
    (options : list ShippingOption) (zone : ShippingZone) :
  calculateShipping up body = Json200 options zone ->
  exists zones, get_zones up = Return zones /\ zone ∈ zones.
Proof.
  intros (zones & _ & _ & Hz & Hsel & _)%calculateShipping_200.
  exists zones. split; [assumption|]. now apply selected_zone_elem in Hsel.
Qed.

(** X4. The options of a 200 answer are those of the enabled methods of
    the zone, one for one and in the order upstream listed them, each with
    its method's id and instance id; no option is disabled. *)
Theorem calculateShipping_options_mirror_methods (body : Body)
    (options : list ShippingOption) (zone : ShippingZone) :
  calculateShipping up body = Json200 options zone ->
  exists methods,
    get_methods up (zone_id zone) = Return methods
    /\ Forall2 (fun option method =>
                  opt_id option = method_id method
                  /\ opt_instance_id option = instance_id method
                  /\ enabled method = true)
         options (List.filter enabled methods)
    /\ Forall (fun option => opt_enabled option = true) options.
Proof.
  intros (zones & methods & items & _ & _ & Hm & _ & ->)%calculateShipping_200.
  exists methods. split; [assumption|].
  assert (Hen : Forall (fun method => enabled method = true)
                  (List.filter enabled methods)).
  { apply Forall_forall. intros m Hin%list_elem_of_In%filter_In. tauto. }
  induction Hen as [|m ms Hm' _ IH]; cbn [List.map]; [split; constructor|].
  destruct IH as [IH1 IH2]. split; constructor; auto.
Qed.

End HandlerAnswers.

Lemma calculateShipping_zone_from_upstream_sample :
  exists zones,
    get_zones (Sample.shop (Sample.method_with "flat_rate" (Sample.cost_of "10%")))
    = Return zones
    /\ Sample.europe ∈ zones.
Proof.
  eapply (calculateShipping_zone_from_upstream
            (Sample.shop (Sample.method_with "flat_rate" (Sample.cost_of "10%")))
            (Sample.request (Some "DE")) _ Sample.europe).
  reflexivity.
Defined.

Lemma calculateShipping_options_mirror_methods_sample :
  exists methods,
    get_methods (Sample.shop (Sample.method_with "flat_rate" (Sample.cost_of "10%")))
      (zone_id Sample.europe) = Return methods
    /\ Forall2 (fun option method =>
                  opt_id option = method_id method
                  /\ opt_instance_id option = instance_id method
                  /\ enabled method = true)
         (List.map (shipping_option (cart_total Sample.cart))
            (List.filter enabled
               [Sample.method_with "flat_rate" (Sample.cost_of "10%")]))
         (List.filter enabled methods)
    /\ Forall (fun option => opt_enabled option = true)
         (List.map (shipping_option (cart_total Sample.cart))
            (List.filter enabled
               [Sample.method_with "flat_rate" (Sample.cost_of "10%")])).
Proof.
  eapply (calculateShipping_options_mirror_methods
            (Sample.shop (Sample.method_with "flat_rate" (Sample.cost_of "10%")))
            (Sample.request (Some "DE")) _ Sample.europe).
  reflexivity.
Defined.

(** ** Titles and descriptions *)

Section Texts.

Implicit Types (s r : string) (c : ascii).

Lemma non_empty_Some (v : option string) s : non_empty v = Some s -> s <> "".
Proof.
  unfold non_empty. destruct v as [t|]; [|discriminate].
  destruct (String.eqb t "") eqn:E; [discriminate|].
  intros [= <-]. now apply String.eqb_neq.
Qed.

(** X5. The title of an option is never empty: it is the first of
    [settings.title.value], [method_title] and [title] that is there and
    not empty, and "Shipping" when none is. *)
Theorem shipping_option_title (cartTotal : number) (method : ShippingMethod) :
  opt_title (shipping_option cartTotal method) <> ""
  /\ opt_title (shipping_option cartTotal method)
     = default "Shipping"
         (first_non_empty
            [custom_title method; method_title method; title method]).
Proof.
  cbn [shipping_option opt_title].
  unfold method_title_of, first_non_empty, setting_value, custom_title.
  cbn [omap list_omap].
  destruct (settings method) as [st|]; cbn [mbind option_bind].
  - destruct (st !! "title") as [entry|]; cbn [mbind option_bind].
    + destruct (non_empty (value_of entry)) as [t|] eqn:Ht; cbn [head default from_option id].
      * split; [now apply non_empty_Some in Ht|reflexivity].
      * destruct (non_empty (method_title method)) as [t|] eqn:H1;
          [split; [now apply non_empty_Some in H1|reflexivity]|].
        destruct (non_empty (title method)) as [t|] eqn:H2;
          [split; [now apply non_empty_Some in H2|reflexivity]|].
        now split.
    + destruct (non_empty (method_title method)) as [t|] eqn:H1;
        [split; [now apply non_empty_Some in H1|reflexivity]|].
      destruct (non_empty (title method)) as [t|] eqn:H2;
        [split; [now apply non_empty_Some in H2|reflexivity]|].
      now split.
  - destruct (non_empty (method_title method)) as [t|] eqn:H1;
      [split; [now apply non_empty_Some in H1|reflexivity]|].
    destruct (non_empty (title method)) as [t|] eqn:H2;
      [split; [now apply non_empty_Some in H2|reflexivity]|].
    now split.
Qed.

(** *** Tags *)

Lemma no_gt_tag_free s : has_gt s = false -> tag_free s = true.
Proof.
  induction s as [|c r IH]; [reflexivity|]. cbn [has_gt tag_free].
  destruct (Ascii.eqb c ">"); [discriminate|]. intros Hr.
  rewrite Hr, (IH Hr). now destruct (Ascii.eqb c "<").
Qed.

Lemma strip_tags_skip_tag_free s :
  tag_free (strip_tags s) = true /\ tag_free (skip_tag s) = true.
Proof.
  induction s as [|c r [IH1 IH2]]; [now split|]. split.
  - cbn [strip_tags]. destruct (Ascii.eqb c "<") eqn:Hc.
    + destruct (has_gt r) eqn:Hr; [assumption|].
      cbn [tag_free]. now rewrite Hc, Hr, (no_gt_tag_free r Hr).
    + cbn [tag_free]. now rewrite Hc, IH1.
  - cbn [skip_tag]. now destruct (Ascii.eqb c ">").
Qed.

Lemma tag_free_strip_tags s : tag_free s = true -> strip_tags s = s.
Proof.
  induction s as [|c r IH]; [reflexivity|]. cbn [tag_free strip_tags].
  destruct (Ascii.eqb c "<").
  - intros [Hr _]%andb_true_iff. apply negb_true_iff in Hr. now rewrite Hr.
  - intros [_ Hr]%andb_true_iff. now rewrite (IH Hr).
Qed.


(** *** White space *)

Lemma is_space_not_gt c : Str.is_space c = true -> Ascii.eqb c ">" = false.
Proof.
  destruct c as [[] [] [] [] [] [] [] []]; try discriminate; reflexivity.
Qed.

Lemma has_gt_trim_start s : has_gt (Str.trim_start s) = has_gt s.
Proof.
  induction s as [|c r IH]; [reflexivity|]. cbn [Str.trim_start].
  destruct (Str.is_space c) eqn:Hc; [|reflexivity].
  cbn [has_gt]. now rewrite (is_space_not_gt c Hc).
Qed.

Lemma has_gt_trim_end s : has_gt (Str.trim_end s) = has_gt s.
Proof.
  induction s as [|c r IH]; [reflexivity|]. cbn [Str.trim_end has_gt].
  destruct (Str.trim_end r) as [|d r'] eqn:Hr.
  - cbn [has_gt] in IH. rewrite <- IH.
    destruct (Str.is_space c) eqn:Hc.
    + cbn [has_gt]. now rewrite (is_space_not_gt c Hc).
    + cbn [has_gt]. now destruct (Ascii.eqb c ">").
  - cbn [has_gt]. now rewrite <- IH.
Qed.

Lemma tag_free_trim_start s : tag_free s = true -> tag_free (Str.trim_start s) = true.
Proof.
  induction s as [|c r IH]; [reflexivity|]. cbn [Str.trim_start].
  destruct (Str.is_space c); [|trivial].
  cbn [tag_free]. intros [_ Hr]%andb_true_iff. now apply IH.
Qed.

Lemma tag_free_trim_end s : tag_free s = true -> tag_free (Str.trim_end s) = true.
Proof.
  induction s as [|c r IH]; [reflexivity|]. cbn [tag_free Str.trim_end].
  intros [Hc Hr]%andb_true_iff. specialize (IH Hr).
  pose proof (has_gt_trim_end r) as Hgt.
  destruct (Str.trim_end r) as [|d r'].
  - destruct (Str.is_space c); [reflexivity|].
    cbn [tag_free has_gt]. now destruct (Ascii.eqb c "<").
  - cbn [tag_free] in IH |- *. rewrite IH, Hgt, Hc. reflexivity.
Qed.

Lemma trim_start_fixed s :
  match s with String c _ => Str.is_space c = false | EmptyString => True end ->
  Str.trim_start s = s.
Proof. destruct s as [|c r]; [reflexivity|]. cbn [Str.trim_start]. now intros ->. Qed.

Lemma trim_start_head s :
  match Str.trim_start s with
  | String c _ => Str.is_space c = false
  | EmptyString => True
  end.
Proof.
  induction s as [|c r IH]; [exact I|]. cbn [Str.trim_start].
  now destruct (Str.is_space c) eqn:Hc.
Qed.

Lemma trim_end_head s :
  match s with String c _ => Str.is_space c = false | EmptyString => True end ->
  match Str.trim_end s with
  | String c _ => Str.is_space c = false
  | EmptyString => True
  end.
Proof.
  destruct s as [|c r]; [trivial|]. cbn [Str.trim_end]. intros Hc.
  rewrite Hc. now destruct (Str.trim_end r).
Qed.

Lemma trim_end_idempotent s : Str.trim_end (Str.trim_end s) = Str.trim_end s.
Proof.
  induction s as [|c r IH]; [reflexivity|]. cbn [Str.trim_end].
  destruct (Str.trim_end r) as [|d r'] eqn:Hr.
  - destruct (Str.is_space c) eqn:Hc; [reflexivity|].
    cbn [Str.trim_end]. now rewrite Hc.
  - cbn [Str.trim_end] in IH |- *. rewrite IH. reflexivity.
Qed.

Lemma trim_idempotent s : Str.trim (Str.trim s) = Str.trim s.
Proof.
  unfold Str.trim.
  rewrite (trim_start_fixed (Str.trim_end (Str.trim_start s))).
  - apply trim_end_idempotent.
  - apply trim_end_head, trim_start_head.
Qed.

Lemma tag_free_trim s : tag_free s = true -> tag_free (Str.trim s) = true.
Proof. intros H. now apply tag_free_trim_end, tag_free_trim_start. Qed.

(** The texts the handler falls back on. *)
Lemma default_description_cases (id : option string) (b : bool) :
  In match id with
     | Some "free_shipping" => "Free delivery to your address"
     | Some "flat_rate" => if b then "Fixed rate delivery" else "Standard delivery"
     | Some "local_pickup" => "Pick up from our location"
     | _ => "Delivery service"
     end
    [ "Free delivery to your address"; "Fixed rate delivery";
      "Standard delivery"; "Pick up from our location"; "Delivery service" ].
Proof.
  repeat match goal with
         | |- context [match ?x with _ => _ end] => is_var x; destruct x
         end;
    cbn [In]; tauto.
Qed.

(** X7. The description of an option has five characters or more, no white
    space at either end and no tag: trimming it or stripping its tags
    again changes nothing. *)
Theorem shipping_option_description (cartTotal : number) (method : ShippingMethod) :
  5 <= String.length (description (shipping_option cartTotal method))
  /\ Str.trim (description (shipping_option cartTotal method))
     = description (shipping_option cartTotal method)
  /\ strip_tags (description (shipping_option cartTotal method))
     = description (shipping_option cartTotal method).
Proof.
  cbn [shipping_option description]. unfold method_description_of.
  set (d := match non_empty (method_description method) with
            | Some d => Str.trim (strip_tags d)
            | None => match setting_value method "description" with
                      | Some d => Str.trim (strip_tags d)
                      | None => ""
                      end
            end).
  assert (Hd : Str.trim d = d /\ strip_tags d = d).
  { subst d. destruct (non_empty (method_description method)) as [d0|];
      [|destruct (setting_value method "description") as [d0|]; [|now split]];
      (split; [apply trim_idempotent|];
       apply tag_free_strip_tags, tag_free_trim, strip_tags_skip_tag_free). }
  destruct (String.length d <? 5)%nat eqn:Hlen.
  - pose proof (default_description_cases (method_id method)
                  (Num.ltb Num.zero (method_cost cartTotal method))) as Hin.
    cbn [In] in Hin.
    destruct Hin as [<-|[<-|[<-|[<-|[<-|[]]]]]];
      (split; [cbn; lia|split; reflexivity]).
  - apply Nat.ltb_ge in Hlen. tauto.
Qed.

End Texts.

(** ** More on costs *)

Section MoreCosts.

Local Open Scope Z_scope.

(** X8. The cart total matters to percentage costs only: a method whose
    cost string holds no [%] costs the same for every cart. *)
Theorem method_cost_flat_ignores_cart (method : ShippingMethod)
    (cartTotal cartTotal' : number) :
  from_option (Str.includes "%") false (setting_value method "cost") = false ->
  cost (shipping_option cartTotal method)
  = cost (shipping_option cartTotal' method).
Proof.
  cbn [shipping_option cost]. rewrite !method_cost_unfold.
  destruct (setting_value method "cost") as [s|]; cbn [from_option];
    [|reflexivity].
  now intros ->.
Qed.

(** What rounding with a positive sign can give, for a mantissa that is
    not negative. *)
Lemma binary_round_aux_shape (m e : Z) (l : location) :
  0 <= m ->
  match binary_round_aux Num.prec Num.emax false m e l with
  | S754_zero false | S754_finite false _ _ | S754_infinity false => True
  | _ => False
  end.
Proof.
  intros Hm. unfold binary_round_aux.
  pose proof (shr_fexp_nonneg m e l Hm) as H1.
  destruct (shr_fexp Num.prec Num.emax m e l) as [mrs' e'].
  cbn [fst] in H1.
  pose proof (shr_fexp_nonneg
                (round_nearest_even (shr_m mrs') (loc_of_shr_record mrs'))
                e' loc_Exact (round_nearest_even_nonneg _ _ H1)) as H2.
  destruct (shr_fexp Num.prec Num.emax _ e' loc_Exact) as [mrs'' e''].
  cbn [fst] in H2.
  destruct (shr_m mrs'') as [|p|p]; [exact I| |lia].
  now destruct (e'' <=? Num.emax - Num.prec).
Qed.

Lemma binary_normalize_shape (m e : Z) :
  0 <= m ->
  match binary_normalize Num.prec Num.emax m e false with
  | S754_zero false | S754_finite false _ _ | S754_infinity false => True
  | _ => False
  end.
Proof.
  intros Hm. destruct m as [|p|p]; [exact I| |lia].
  cbn [binary_normalize]. unfold binary_round.
  destruct (shl_align _ _ _) as [mz ez].
  apply binary_round_aux_shape. lia.
Qed.

Lemma add_nonneg (x y : number) :
  nonneg x = true -> nonneg y = true -> nonneg (Num.add x y) = true.
Proof.
  destruct x as [sx|sx| |sx mx ex]; try discriminate;
    destruct y as [sy|sy| |sy my ey]; try discriminate;
    intros Hx Hy; try assumption; try (now destruct sx, sy).
  destruct sx; [discriminate|]. destruct sy; [discriminate|].
  unfold Num.add, SFadd. cbn [cond_Zopp].
  pose proof (binary_normalize_shape
                (Z.pos (fst (shl_align mx ex (Z.min ex ey)))
                 + Z.pos (fst (shl_align my ey (Z.min ex ey))))
                (Z.min ex ey) ltac:(lia)) as H.
  now destruct (binary_normalize _ _ _ _ _) as [[]|[]| |[] ? ?].
Qed.

Lemma plain_mul_nonneg (x y : number) :
  plain_amount x = true -> plain_amount y = true ->
  nonneg (Num.mul x y) = true.
Proof.
  unfold plain_amount. intros [? ?]%andb_true_iff [? ?]%andb_true_iff.
  now apply mul_nonneg.
Qed.

Lemma fold_cart_nonneg (items : list CartItem) (total : number) :
  nonneg total = true ->
  Forall (fun item => plain_amount (price item) = true
                      /\ plain_amount (quantity item) = true) items ->
  nonneg (fold_left
            (fun total item =>
               Num.add total (Num.mul (price item) (quantity item)))
            items total) = true.
Proof.
  intros Ht Hall. revert total Ht.
  induction Hall as [|item items [Hp Hq] _ IH]; intros total Ht;
    cbn [fold_left]; [assumption|].
  apply IH, add_nonneg; [assumption|]. now apply plain_mul_nonneg.
Qed.

(** X9. When every item of the cart has a price and a quantity that are
    finite and not negative, the cart total is not negative; in
    particular it is a number and not [NaN]. *)
Theorem cart_total_nonneg (items : list CartItem) :
  Forall (fun item => plain_amount (price item) = true
                      /\ plain_amount (quantity item) = true) items ->
  nonneg (cart_total items) = true /\ Num.is_nan (cart_total items) = false.
Proof.
  intros Hall.
  assert (H : nonneg (cart_total items) = true)
    by now apply fold_cart_nonneg.
  split; [assumption|]. now destruct (cart_total items).
Qed.

End MoreCosts.

Lemma method_cost_flat_ignores_cart_sample :
  cost (shipping_option (Num.of_Z 20)
          (Sample.method_with "flat_rate" (Sample.cost_of "5.50")))
  = cost (shipping_option (Num.of_Z 300)
            (Sample.method_with "flat_rate" (Sample.cost_of "5.50"))).
Proof.
  apply (method_cost_flat_ignores_cart
           (Sample.method_with "flat_rate" (Sample.cost_of "5.50"))
           (Num.of_Z 20) (Num.of_Z 300)).
  reflexivity.
Defined.

Lemma cart_total_nonneg_sample :
  nonneg (cart_total Sample.cart) = true
  /\ Num.is_nan (cart_total Sample.cart) = false.
Proof.
  apply (cart_total_nonneg Sample.cart).
  repeat constructor.
Defined.

(** ** Cost strings that are whole numbers *)

Section WholeNumbers.

Local Open Scope Z_scope.

Implicit Types (ds s : string) (c : ascii).

Lemma digits_value_from_nonneg ds (acc : Z) :
  all_digits ds = true -> 0 <= acc -> 0 <= Str.digits_value_from acc ds.
Proof.
  revert acc. induction ds as [|c r IH]; intros acc; cbn [all_digits Str.digits_value_from];
    [trivial|].
  intros [Hc Hr]%andb_true_iff Hacc. apply IH; [assumption|].
  unfold Str.is_digit, Str.digit_val in *.
  apply andb_true_iff in Hc as [H1%N.leb_le _]. lia.
Qed.

Lemma span_digits_all ds :
  all_digits ds = true -> Str.span_digits ds = (ds, EmptyString).
Proof.
  induction ds as [|c r IH]; cbn [all_digits Str.span_digits]; [reflexivity|].
  intros [-> Hr]%andb_true_iff. now rewrite (IH Hr).
Qed.

(** A digit is neither white space, nor a sign, nor a letter. *)
Lemma parse_decimal_digit c r :
  Str.is_digit c = true ->
  Str.trim_start (String c r) = String c r
  /\ NumStr.parse_decimal (String c r)
     = match NumStr.parse_unsigned (String c r) with
       | Some (d, rest) => Some (NumStr.to_number false d, rest)
       | None => None
       end
  /\ Str.strip_prefix "Infinity" (String c r) = None
  /\ Ascii.eqb c "%" = false
  /\ String.eqb (String c r) "min_amount" = false.
Proof.
  destruct c as [[] [] [] [] [] [] [] []]; try discriminate; intros _;
    repeat split; reflexivity.
Qed.

Lemma of_decimal_whole (m : Z) :
  0 <= m -> Num.of_decimal false m 0 = Num.of_Z m.
Proof.
  intros Hm. unfold Num.of_decimal, Num.of_Z.
  destruct m as [|p|p]; [reflexivity| |lia].
  cbn [Z.leb Z.compare]. now rewrite Z.pow_0_r, Z.mul_1_r.
Qed.

(** [parseFloat] on a string of digits gives the integer they write. *)
Lemma parseFloat_digits ds :
  ds <> "" -> all_digits ds = true ->
  parseFloat ds = Num.of_Z (Str.digits_value ds).
Proof.
  intros Hne Hds. destruct ds as [|c r]; [contradiction|].
  pose proof Hds as Hall. cbn [all_digits] in Hds.
  apply andb_true_iff in Hds as [Hc _].
  destruct (parse_decimal_digit c r Hc) as (Htrim & Hdec & Hinf & _ & _).
  unfold parseFloat, NumStr.parseFloat. rewrite Htrim, Hdec.
  unfold NumStr.parse_unsigned. rewrite Hinf, (span_digits_all _ Hall).
  cbn [NumStr.parse_exponent NumStr.to_number].
  apply of_decimal_whole, digits_value_from_nonneg; [assumption|lia].
Qed.

Lemma of_Z_falsy (m : Z) :
  0 <= m -> Num.truthy (Num.of_Z m) = false -> Num.of_Z m = Num.zero.
Proof.
  intros Hm. unfold Num.of_Z.
  pose proof (binary_normalize_shape m 0 Hm) as H.
  now destruct (binary_normalize _ _ _ _ _) as [[]|[]| |[] ? ?].
Qed.

Lemma includes_digits ds : all_digits ds = true -> Str.includes "%" ds = false.
Proof.
  induction ds as [|c r IH]; cbn [all_digits Str.includes]; [reflexivity|].
  intros [Hc Hr]%andb_true_iff.
  destruct (parse_decimal_digit c r Hc) as (_ & _ & _ & -> & _). now apply IH.
Qed.

Lemma remove_first_percent ds s :
  all_digits ds = true ->
  Str.includes "%" (ds ++ String "%" s) = true
  /\ Str.remove_first "%" (ds ++ String "%" s) = ds ++ s.
Proof.
  induction ds as [|c r IH]; cbn [all_digits]; [now split|].
  intros [Hc Hr]%andb_true_iff.
  destruct (parse_decimal_digit c r Hc) as (_ & _ & _ & Hpct & _).
  change (String c r ++ String "%" s)%string
    with (String c (r ++ String "%" s))%string.
  change (String c r ++ s)%string with (String c (r ++ s))%string.
  cbn [Str.includes Str.remove_first]. rewrite Hpct.
  destruct (IH Hr) as [-> ->]. now split.
Qed.

(** *** Whole numbers below [2 ^ 53] *)

Lemma digits2_pos_bounds (p : positive) :
  2 ^ (Zpos (digits2_pos p) - 1) <= Zpos p < 2 ^ Zpos (digits2_pos p).
Proof.
  induction p as [p IH|p IH|]; cbn [digits2_pos];
    rewrite ?Pos2Z.inj_succ; [| |cbn; lia];
    replace (Z.succ (Zpos (digits2_pos p)) - 1) with (Zpos (digits2_pos p)) by lia;
    rewrite Z.pow_succ_r by lia;
    replace (2 ^ Zpos (digits2_pos p))
      with (2 * 2 ^ (Zpos (digits2_pos p) - 1)) in *
      by (rewrite <- Z.pow_succ_r by lia; f_equal; lia);
    lia.
Qed.

Lemma iter_xO_value (p k : positive) :
  Zpos (Pos.iter xO p k) = Zpos p * 2 ^ Zpos k
  /\ Zpos (digits2_pos (Pos.iter xO p k)) = Zpos (digits2_pos p) + Zpos k.
Proof.
  induction k as [|k [IH1 IH2]] using Pos.peano_ind.
  - cbn [Pos.iter digits2_pos]. rewrite Pos2Z.inj_succ. split; lia.
  - rewrite Pos.iter_succ. cbn [digits2_pos].
    rewrite !Pos2Z.inj_succ, Pos2Z.inj_xO, IH1, IH2, Z.pow_succ_r by lia.
    split; lia.
Qed.

(** A whole number below [2 ^ 53] is a number of its own: [of_Z] rounds
    nothing away. *)
Lemma of_Z_exact (n : Z) : 0 <= n < 2 ^ 53 -> is_whole (Num.of_Z n) n.
Proof.
  intros [Hpos Hlt]. destruct n as [|p|p]; [reflexivity| |lia].
  pose proof (digits2_pos_bounds p) as [Hlo Hhi].
  set (d := Zpos (digits2_pos p)) in *.
  assert (Hd : 1 <= d <= 53).
  { split; [subst d; lia|].
    destruct (Z.le_gt_cases d 53) as [|Hgt]; [assumption|].
    assert (2 ^ 53 <= 2 ^ (d - 1)) by (apply Z.pow_le_mono_r; lia). lia. }
  unfold Num.of_Z. cbn [binary_normalize]. unfold binary_round.
  assert (Hfexp : fexp Num.prec Num.emax (d + 0) = d - 53)
    by (unfold fexp, emin, Num.prec, Num.emax; lia).
  fold d. rewrite Hfexp.
  assert (Halign : exists mz,
    shl_align p 0 (d - 53) = (mz, d - 53)
    /\ Zpos mz = Zpos p * 2 ^ (53 - d)
    /\ Zpos (digits2_pos mz) = 53).
  { unfold shl_align. rewrite Z.sub_0_r.
    destruct (d - 53) as [|k|k] eqn:Hk; [|lia|].
    - exists p. assert (Hd53 : d = 53) by lia. rewrite Hd53.
      split; [reflexivity|]. split; [cbn; lia|exact Hd53].
    - exists (Pos.iter xO p k). destruct (iter_xO_value p k) as [H1 H2].
      assert (Hk53 : Zpos k = 53 - d) by lia.
      split; [reflexivity|]. split.
      + rewrite H1, Hk53. reflexivity.
      + rewrite H2. fold d. lia. }
  destruct Halign as (mz & -> & Hmz & Hdig).
  unfold binary_round_aux, shr_fexp. cbn [Zdigits2 shr_record_of_loc].
  rewrite Hdig.
  assert (Hshift : fexp Num.prec Num.emax (53 + (d - 53)) - (d - 53) = 0)
    by (unfold fexp, emin, Num.prec, Num.emax; lia).
  rewrite Hshift. cbn [shr shr_m loc_of_shr_record round_nearest_even
                       Zdigits2 shr_record_of_loc].
  rewrite Hdig, Hshift. cbn [shr shr_m].
  assert (Hle : (d - 53 <=? Num.emax - Num.prec) = true)
    by (apply Z.leb_le; unfold Num.prec, Num.emax; lia).
  rewrite Hle. cbn [is_whole]. split; [lia|].
  rewrite Hmz. f_equal. f_equal. lia.
Qed.

Lemma method_cost_digits (cartTotal : number) (method : ShippingMethod)
    (ds : string) :
  setting_value method "cost" = Some ds ->
  all_digits ds = true ->
  method_cost cartTotal method = Num.of_Z (Str.digits_value ds).
Proof.
  intros Hs Hds.
  rewrite method_cost_unfold, Hs, (includes_digits ds Hds).
  assert (Hne : ds <> "").
  { intros ->. unfold setting_value in Hs.
    destruct (settings method) as [st|]; [|discriminate].
    cbn [mbind option_bind] in Hs.
    destruct (st !! "cost") as [entry|]; [|discriminate].
    cbn [mbind option_bind] in Hs. now apply non_empty_Some in Hs. }
  destruct ds as [|c r]; [contradiction|].
  pose proof Hds as Hall. cbn [all_digits] in Hds.
  apply andb_true_iff in Hds as [Hc _].
  destruct (parse_decimal_digit c r Hc) as (_ & _ & _ & _ & ->).
  rewrite (parseFloat_digits _ Hne Hall).
  destruct (Num.truthy _) eqn:Ht; [reflexivity|].
  symmetry. apply of_Z_falsy; [|assumption].
  apply digits_value_from_nonneg; [assumption|lia].
Qed.

(** X10. A cost written as a whole number, as in "5" or "12", is charged
    as the number nearest to that whole number, whatever the cart; below
    [2 ^ 53] that is the whole number itself, with nothing rounded away. *)
Theorem method_cost_whole_number (cartTotal : number) (method : ShippingMethod)
    (ds : string) :
  setting_value method "cost" = Some ds ->
  all_digits ds = true ->
  cost (shipping_option cartTotal method) = Num.of_Z (Str.digits_value ds)
  /\ (Str.digits_value ds < 2 ^ 53 ->
      is_whole (cost (shipping_option cartTotal method)) (Str.digits_value ds)).
Proof.
  intros Hs Hds. cbn [shipping_option cost].
  rewrite (method_cost_digits cartTotal method ds Hs Hds).
  split; [reflexivity|]. intros Hlt. apply of_Z_exact. split; [|assumption].
  apply digits_value_from_nonneg; [assumption|lia].
Qed.

(** X11. A cost written as a whole number and a percent sign, as in "10%",
    is charged as that many hundredths of the cart total. *)
Theorem method_cost_whole_percentage (cartTotal : number)
    (method : ShippingMethod) (ds : string) :
  setting_value method "cost" = Some (ds ++ "%") ->
  ds <> "" ->
  all_digits ds = true ->
  cost (shipping_option cartTotal method)
  = Num.div (Num.mul cartTotal (Num.of_Z (Str.digits_value ds))) Num.hundred.
Proof.
  intros Hs Hne Hds. cbn [shipping_option cost].
  rewrite method_cost_unfold, Hs. unfold stripped_percentage.
  destruct (remove_first_percent ds "" Hds) as [-> ->].
  assert (Happ : forall t : string, (t ++ "")%string = t)
    by (induction t as [|a t IH]; [reflexivity|];
        change (String a t ++ "")%string with (String a (t ++ ""))%string;
        now rewrite IH).
  now rewrite Happ, (parseFloat_digits ds Hne Hds).
Qed.

End WholeNumbers.

Lemma method_cost_whole_number_sample :
  cost (shipping_option (Num.of_Z 200)
          (Sample.method_with "flat_rate" (Sample.cost_of "12")))
  = Num.of_Z (Str.digits_value "12")
  /\ ((Str.digits_value "12" < 2 ^ 53)%Z ->
      is_whole (cost (shipping_option (Num.of_Z 200)
                        (Sample.method_with "flat_rate" (Sample.cost_of "12"))))
        (Str.digits_value "12")).
Proof.
  apply (method_cost_whole_number (Num.of_Z 200)
           (Sample.method_with "flat_rate" (Sample.cost_of "12")) "12").
  - reflexivity.
  - reflexivity.
Defined.

Lemma method_cost_whole_percentage_sample :
  cost (shipping_option (Num.of_Z 200)
          (Sample.method_with "flat_rate" (Sample.cost_of "10%")))
  = Num.div (Num.mul (Num.of_Z 200) (Num.of_Z (Str.digits_value "10")))
      Num.hundred.
Proof.
  apply (method_cost_whole_percentage (Num.of_Z 200)
           (Sample.method_with "flat_rate" (Sample.cost_of "10%")) "10").
  - reflexivity.
  - discriminate.
  - reflexivity.
Defined.

(** ** More on the stock normaliser *)

(** X12. After [parseStockInfo] no product is both in stock and at
    quantity 0: when [stock_status] is "instock", the quantity left in the
    record is not equal to 0. The status itself is left as it was. *)
Theorem parseStockInfo_in_stock_not_zero (o : gmap string prim) :
  exists o' n,
    parseStockInfo (Object o) = Return (Object o')
    /\ o' !! "stock_quantity" = Some (Number n)
    /\ o' !! "stock_status" = o !! "stock_status"
    /\ Num.eqb n Num.zero && in_stock o' = false.
Proof.
  eexists _, _. split; [apply parseStockInfo_object|].
  split; [apply lookup_insert_eq|].
  split; [now apply lookup_insert_ne|].
  rewrite in_stock_insert. unfold normalized_quantity.
  destruct (Num.eqb (coerced_quantity o) Num.zero) eqn:Hz;
    destruct (in_stock o); cbn [andb]; rewrite ?Hz; reflexivity.
Qed.

(** ** The product endpoints *)

Section ProductEndpoints.

Variable catalog : Catalog.

Lemma parseStockInfo_normalized (v : value) :
  parseStockInfo v = Return (normalized v).
Proof.
  destruct v as [p|o]; [apply parseStockInfo_prim|apply parseStockInfo_object].
Qed.

(** Normalising a list of products never throws. *)
Lemma map_m_parseStockInfo (items : list value) :
  map_m parseStockInfo items = Return (List.map normalized items).
Proof.
  induction items as [|v items IH]; [reflexivity|].
  cbn [map_m List.map]. rewrite parseStockInfo_normalized, IH. reflexivity.
Qed.

(** X13. [GET /api/products/:id] answers 200 with the normalised product;
    it answers 500 with the upstream error when the call fails, and 500
    with a [TypeError] when upstream's body is [null] or [undefined], which
    [parseStockInfo] lets through and the handler then reads a property
    of. *)
Theorem getProduct_answers (id : string) :
  getProduct catalog id
  = match get_product catalog id with
    | Throw e => Answer500 "Failed to fetch product details" e
    | Return (Prim (Undefined | Null)) =>
        Answer500 "Failed to fetch product details" TypeError
    | Return v => Answer200 (normalized v)
    end.
Proof.
  unfold getProduct.
  destruct (get_product catalog id) as [v|e]; [|reflexivity].
  cbn [mbind result_bind]. rewrite parseStockInfo_normalized.
  cbn [mbind result_bind]. now destruct v as [[]|o].
Qed.

(** X14. [GET /api/related-products] never answers 500. It answers 400
    exactly when [category_id] is missing or empty; otherwise it answers
    200, with the normalised products of upstream's array, and with no
    product when the upstream call fails or its body is no array. *)
Theorem relatedProducts_answers (query : gmap string string) :
  (forall tag cause, relatedProducts catalog query <> Answer500 tag cause)
  /\ (relatedProducts catalog query
      = Answer400 "Missing category_id parameter"
          "A category ID is required to fetch related products"
      <-> non_empty (query !! "category_id") = None)
  /\ (forall category_id,
        non_empty (query !! "category_id") = Some category_id ->
        relatedProducts catalog query
        = Answer200
            match get_products catalog (related_params query category_id) with
            | Return response => normalized_items (resp_data response)
            | Throw _ => []
            end).
Proof.
  assert (Hrun : forall category_id,
    non_empty (query !! "category_id") = Some category_id ->
    relatedProducts catalog query
    = Answer200
        match get_products catalog (related_params query category_id) with
        | Return response => normalized_items (resp_data response)
        | Throw _ => []
        end).
  { intros category_id Hc. unfold relatedProducts. rewrite Hc.
    destruct (get_products catalog _) as [response|e]; [|reflexivity].
    cbn [mbind result_bind].
    destruct (resp_data response) as [items|v]; [|reflexivity].
    now rewrite map_m_parseStockInfo. }
  split; [|split; [|exact Hrun]].
  - intros tag cause.
    destruct (non_empty (query !! "category_id")) as [category_id|] eqn:Hc.
    + now rewrite (Hrun category_id eq_refl).
    + unfold relatedProducts. now rewrite Hc.
  - destruct (non_empty (query !! "category_id")) as [category_id|] eqn:Hc.
    + rewrite (Hrun category_id eq_refl). split; discriminate.
    + unfold relatedProducts. now rewrite Hc.
Qed.

Lemma listProducts_unfold (query : gmap string string) :
  listProducts catalog query
  = match get_products catalog (list_params query) with
    | Throw e => Answer500 "Failed to fetch products" e
    | Return response =>
        Answer200
          {| products :=
               match resp_data response with
               | Array items => Array (List.map normalized items)
               | Other v => Other v
               end;
             total := parseInt (header_or_zero response "x-wp-total");
             totalPages := parseInt (header_or_zero response "x-wp-totalpages") |}
    end.
Proof.
  unfold listProducts.
  destruct (get_products catalog (list_params query)) as [response|e];
    [|reflexivity].
  cbn [mbind result_bind].
  destruct (resp_data response) as [items|v]; [|reflexivity].
  now rewrite map_m_parseStockInfo.
Qed.

Lemma featuredProducts_unfold (query : gmap string string) :
  featuredProducts catalog query
  = match get_products catalog (featured_params query) with
    | Throw e => Answer500 "Failed to fetch featured products" e
    | Return response =>
        Answer200
          {| products := normalized_items (resp_data response);
             total := parseInt (header_or_zero response "x-wp-total");
             totalPages := parseInt (header_or_zero response "x-wp-totalpages") |}
    end.
Proof.
  unfold featuredProducts.
  destruct (get_products catalog (featured_params query)) as [response|e];
    [|reflexivity].
  cbn [mbind result_bind].
  destruct (resp_data response) as [items|v]; [|reflexivity].
  now rewrite map_m_parseStockInfo.
Qed.

(** X15. [GET /api/products] and [GET /api/products/featured] answer 500
    only when the upstream call fails. Otherwise they answer 200:
    normalising the products never fails, keeps their number and their
    order, and a body that is no array is passed on as it is by the first
    endpoint and replaced by an empty list by the second. *)
Theorem product_pages_answer (query : gmap string string) :
  listProducts catalog query
  = match get_products catalog (list_params query) with
    | Throw e => Answer500 "Failed to fetch products" e
    | Return response =>
        Answer200
          {| products :=
               match resp_data response with
               | Array items => Array (List.map normalized items)
               | Other v => Other v
               end;
             total := parseInt (header_or_zero response "x-wp-total");
             totalPages := parseInt (header_or_zero response "x-wp-totalpages") |}
    end
  /\ featuredProducts catalog query
     = match get_products catalog (featured_params query) with
       | Throw e => Answer500 "Failed to fetch featured products" e
       | Return response =>
           Answer200
             {| products := normalized_items (resp_data response);
                total := parseInt (header_or_zero response "x-wp-total");
                totalPages := parseInt (header_or_zero response "x-wp-totalpages") |}
       end.
Proof. split; [apply listProducts_unfold|apply featuredProducts_unfold]. Qed.

End ProductEndpoints.

Section Paging.

Local Open Scope Z_scope.

Lemma radix_digit_decimal (c : ascii) :
  Str.is_digit c = true ->
  NumStr.radix_digit 10 c = Some (Str.digit_val c)
  /\ Ascii.eqb c "x" || Ascii.eqb c "X" = false.
Proof.
  destruct c as [[] [] [] [] [] [] [] []]; try discriminate; intros _;
    split; reflexivity.
Qed.

Lemma radix_prefix_digits (ds : string) :
  all_digits ds = true -> IntStr.radix_prefix 10 ds = ds.
Proof.
  induction ds as [|c r IH]; cbn [all_digits IntStr.radix_prefix];
    [reflexivity|].
  intros [Hc Hr]%andb_true_iff.
  destruct (radix_digit_decimal c Hc) as [-> _]. now rewrite (IH Hr).
Qed.

Lemma radix_value_digits (ds : string) (acc : Z) :
  all_digits ds = true ->
  NumStr.radix_value 10 acc ds = Some (Str.digits_value_from acc ds).
Proof.
  revert acc. induction ds as [|c r IH]; intros acc;
    cbn [all_digits NumStr.radix_value Str.digits_value_from]; [reflexivity|].
  intros [Hc Hr]%andb_true_iff.
  destruct (radix_digit_decimal c Hc) as [-> _]. now apply IH.
Qed.

Lemma parseInt_digits (ds : string) :
  ds <> "" -> all_digits ds = true ->
  parseInt ds = Num.of_Z (Str.digits_value ds).
Proof.
  intros Hne Hds. destruct ds as [|c r]; [contradiction|].
  pose proof Hds as Hall. cbn [all_digits] in Hds.
  apply andb_true_iff in Hds as [Hc Hr].
  destruct (parse_decimal_digit c r Hc) as (Htrim & _).
  unfold parseInt, IntStr.parseInt. rewrite Htrim.
  assert (Hsign :
    match String c r with
    | String "+" r' => (false, r')
    | String "-" r' => (true, r')
    | _ => (false, String c r)
    end = (false, String c r)).
  { clear -Hc. destruct c as [[] [] [] [] [] [] [] []]; try discriminate;
      reflexivity. }
  rewrite Hsign.
  assert (Hradix :
    match String c r with
    | String "0" (String c' r') =>
        if Ascii.eqb c' "x" || Ascii.eqb c' "X" then (16, r') else (10, String c r)
    | _ => (10, String c r)
    end = (10, String c r)).
  { destruct r as [|c' r']; cbn [all_digits] in Hr.
    - clear. destruct c as [[] [] [] [] [] [] [] []]; reflexivity.
    - apply andb_true_iff in Hr as [Hc' _].
      destruct (radix_digit_decimal c' Hc') as [_ ->].
      clear. destruct c as [[] [] [] [] [] [] [] []]; reflexivity. }
  rewrite Hradix, (radix_prefix_digits _ Hall), (radix_value_digits _ 0 Hall).
  fold (Str.digits_value (String c r)).
  pose proof (digits_value_from_nonneg (String c r) 0 Hall ltac:(lia)) as Hpos.
  fold (Str.digits_value (String c r)) in Hpos.
  unfold Num.of_Z.
  destruct (Str.digits_value (String c r)) as [|p|p]; [reflexivity..|lia].
Qed.

(** X16. The [total] of a product page is the number nearest to the whole
    number written in upstream's [x-wp-total] header when the header is a
    string of digits, and 0 when the header is missing or empty; below
    [2 ^ 53] it is that whole number itself. *)
Theorem listProducts_total (catalog : Catalog) (query : gmap string string)
    (response : ProductsResponse) :
  get_products catalog (list_params query) = Return response ->
  from_option all_digits true (resp_headers response !! "x-wp-total") = true ->
  exists page,
    listProducts catalog query = Answer200 page
    /\ total page
       = Num.of_Z (from_option Str.digits_value 0
                     (resp_headers response !! "x-wp-total"))
    /\ (from_option Str.digits_value 0
          (resp_headers response !! "x-wp-total") < 2 ^ 53 ->
        is_whole (total page)
          (from_option Str.digits_value 0
             (resp_headers response !! "x-wp-total"))).
Proof.
  intros Hget Hds. rewrite listProducts_unfold, Hget.
  eexists. split; [reflexivity|]. cbn [total].
  assert (Htotal :
    parseInt (header_or_zero response "x-wp-total")
    = Num.of_Z (from_option Str.digits_value 0
                  (resp_headers response !! "x-wp-total"))).
  { unfold header_or_zero.
    destruct (resp_headers response !! "x-wp-total") as [h|];
      cbn [from_option] in *; [|reflexivity].
    destruct (String.eqb h "") eqn:Hh.
    - apply String.eqb_eq in Hh as ->. reflexivity.
    - apply String.eqb_neq in Hh. now apply parseInt_digits. }
  rewrite Htotal. split; [reflexivity|]. intros Hlt. apply of_Z_exact.
  split; [|assumption].
  destruct (resp_headers response !! "x-wp-total") as [h|];
    cbn [from_option] in *; [|lia].
  apply digits_value_from_nonneg; [assumption|lia].
Qed.

(** X17. [GET /api/products] forwards every query parameter to upstream
    as it is, adds [page] 1 and [per_page] 10 when the query has none, and
    sends nothing else. *)
Theorem list_params_forwarded (query : gmap string string) (key : string) :
  list_params query !! key
  = match query !! key with
    | Some v => Some (Str v)
    | None =>
        if String.eqb key "page" then Some (Number (Num.of_Z 1))
        else if String.eqb key "per_page" then Some (Number (Num.of_Z 10))
        else None
    end.
Proof.
  unfold list_params, param_or. rewrite lookup_union, lookup_fmap.
  destruct (query !! key) as [v|] eqn:Hk; cbn [fmap option_fmap option_map].
  - match goal with |- Some _ ∪ ?o = _ => destruct o end; reflexivity.
  - rewrite (left_id None _).
    destruct (String.eqb key "page") eqn:E1.
    { apply String.eqb_eq in E1 as ->. rewrite lookup_insert_eq.
      now rewrite Hk. }
    apply String.eqb_neq in E1. rewrite lookup_insert_ne by congruence.
    destruct (String.eqb key "per_page") eqn:E2.
    { apply String.eqb_eq in E2 as ->. rewrite lookup_singleton_eq.
      now rewrite Hk. }
    apply String.eqb_neq in E2. now rewrite lookup_singleton_ne by congruence.
Qed.

End Paging.

(** ** Orders *)

Section Orders.

Implicit Types (fields sent : list (string * json)) (k : string) (v : json).

Lemma lookup_clone_fields fields k :
  lookup_field (clone_fields fields) k = clone <$> lookup_field fields k.
Proof.
  induction fields as [|[k' v'] fields IH]; [reflexivity|].
  cbn [clone_fields List.map lookup_field fst snd].
  destruct (String.eqb k' k); [reflexivity|exact IH].
Qed.





Lemma clone_object fields : clone (JObj fields) = JObj (clone_fields fields).
Proof. reflexivity. Qed.


Lemma has_circular_shipping_plain fields :
  plain_shipping fields = true ->
  has_circular_shipping (JObj (clone_fields fields)) = Return false.
Proof.
  unfold plain_shipping, has_circular_shipping.
  cbn [json_get mbind result_bind]. rewrite lookup_clone_fields.
  destruct (lookup_field fields "shipping") as [shipping|]; [|reflexivity].
  cbn [fmap option_fmap option_map].
  destruct shipping as [|b|n|s|items|shipping]; cbn [clone].
  - reflexivity.
  - now destruct b.
  - intros _. destruct (Num.is_finite n); [|reflexivity].
    destruct (Num.eqb n Num.zero); cbn [json_truthy];
      now destruct (Num.truthy _).
  - intros _. cbn [json_truthy]. now destruct (negb _).
  - reflexivity.
  - fold (clone_fields shipping).
    cbn [json_truthy json_get mbind result_bind]. rewrite lookup_clone_fields.
    destruct (lookup_field shipping "message") as [[| | |s| |]|];
      try discriminate; [|reflexivity].
    cbn [fmap option_fmap option_map clone includes_marker json_truthy].
    intros Hs%negb_true_iff. rewrite Hs. now destruct (negb _).
Qed.


(** X19. An order with no shipping address, with one that has no message,
    or with a message that is a string without the marker goes upstream
    as the JSON round trip of the body, and the answer is the answer to
    that call. *)
Theorem createOrder_plain (post_order : json -> outcome) fields :
  plain_shipping fields = true ->
  createOrder post_order (JObj fields)
  = order_reply (post_order (clone (JObj fields))).
Proof.
  intros Hp. unfold createOrder, prepare_order. rewrite clone_object.
  now rewrite (has_circular_shipping_plain fields Hp).
Qed.

(** X20. A shipping message that is truthy and has no [includes] method
    makes the handler answer 500 before anything goes upstream: the answer
    is the same for every upstream. *)
Theorem createOrder_uncallable_message (post_order : json -> outcome) fields
    (shipping : list (string * json)) (m : json) :
  lookup_field fields "shipping" = Some (JObj shipping) ->
  lookup_field shipping "message" = Some m ->
  uncallable_message m = true ->
  createOrder post_order (JObj fields)
  = Order500 "Failed to create order" EngineText.
Proof.
  intros Hs Hmsg Hm. unfold createOrder, prepare_order, has_circular_shipping.
  rewrite clone_object. cbn [json_get mbind result_bind].
  rewrite (lookup_clone_fields fields "shipping"), Hs.
  cbn [fmap option_fmap option_map].
  rewrite clone_object. cbn [json_truthy json_get mbind result_bind].
  rewrite (lookup_clone_fields shipping "message"), Hmsg.
  cbn [fmap option_fmap option_map].
  destruct m as [|b|n|s|items|o]; try discriminate; cbn [uncallable_message] in Hm.
  - now subst b.
  - apply andb_true_iff in Hm as [Hfin Ht]. cbn [clone]. rewrite Hfin.
    assert (Hz : Num.eqb n Num.zero = false).
    { unfold Num.truthy in Ht. apply negb_true_iff, orb_false_iff in Ht. tauto. }
    rewrite Hz. cbn [json_truthy]. now rewrite Ht.
  - reflexivity.
Qed.

(** X21. When upstream rejects the order, the answer is 500 with
    upstream's own message when its answer is an object with a truthy
    [message], and with the message of the error otherwise. *)
Theorem createOrder_rejected (post_order : json -> outcome) (body sent : json)
    (e : ApiError) :
  prepare_order body = Return sent ->
  post_order sent = Failed e ->
  createOrder post_order body
  = Order500 "Failed to create order"
      (Text match api_response_data e with
            | Some (JObj data) =>
                match lookup_field data "message" with
                | Some m => if json_truthy m then m else JStr (api_message e)
                | None => JStr (api_message e)
                end
            | _ => JStr (api_message e)
            end).
Proof.
  intros Hp Hpost. unfold createOrder. rewrite Hp, Hpost.
  cbn [order_reply]. unfold error_message.
  destruct (api_response_data e) as [[|b|n|s|items|data]|]; try reflexivity;
    cbn [json_truthy json_get try_catch].
  - now destruct b.
  - now destruct (Num.truthy n).
  - now destruct (negb _).
Qed.

End Orders.


Lemma createOrder_plain_sample :
  createOrder SampleOrders.accept (JObj SampleOrders.plain_order)
  = order_reply (SampleOrders.accept (clone (JObj SampleOrders.plain_order))).
Proof.
  apply (createOrder_plain SampleOrders.accept SampleOrders.plain_order).
  reflexivity.
Defined.

Lemma createOrder_uncallable_message_sample :
  createOrder SampleOrders.accept (JObj SampleOrders.odd_order)
  = Order500 "Failed to create order" EngineText.
Proof.
  apply (createOrder_uncallable_message SampleOrders.accept
           SampleOrders.odd_order
           [ ("message", JNum (Num.of_Z 5)) ] (JNum (Num.of_Z 5))).
  - reflexivity.
  - reflexivity.
  - reflexivity.
Defined.

Lemma createOrder_rejected_sample :
  createOrder SampleOrders.reject (JObj SampleOrders.plain_order)
  = Order500 "Failed to create order" (Text (JStr "Invalid billing email")).
Proof.
  apply (createOrder_rejected SampleOrders.reject
           (JObj SampleOrders.plain_order)
           (clone (JObj SampleOrders.plain_order))
           {| api_message := "Request failed with status code 400";
              api_response_data :=
                Some (JObj [ ("code", JStr "invalid_email");
                             ("message", JStr "Invalid billing email") ]) |}).
  - reflexivity.
  - reflexivity.
Defined.

(** ** Payment gateways *)

Section Gateways.

Lemma gateway_enabled_flag (gateway : json) :
  gateway_enabled gateway
  = if is_null gateway then Throw TypeError else Return (enabled_flag gateway).
Proof.
  unfold gateway_enabled.
  destruct gateway as [|b|n|s|items|fields]; reflexivity.
Qed.

Lemma filter_m_gateway_enabled (gateways : list json) :
  filter_m gateway_enabled gateways
  = if existsb is_null gateways then Throw TypeError
    else Return (List.filter enabled_flag gateways).
Proof.
  induction gateways as [|g gateways IH]; [reflexivity|].
  cbn [filter_m existsb List.filter]. rewrite gateway_enabled_flag, IH.
  destruct (is_null g); [reflexivity|]. cbn [orb mbind result_bind].
  destruct (existsb is_null gateways); [reflexivity|].
  cbn [mbind result_bind]. now destruct (enabled_flag g).
Qed.

(** X22. [GET /api/payment-gateways] answers 200 with the gateways whose
    [enabled] is the boolean [true], in upstream's order, and with no
    other. One [null] in upstream's array, or a body that is no array,
    makes it answer 500 with a [TypeError]; a failed call makes it answer
    500 with the error of the call. *)
Theorem paymentGateways_answers (get_gateways : result json) :
  paymentGateways get_gateways
  = match get_gateways with
    | Throw e => Answer500 "Failed to fetch payment gateways" e
    | Return (JArr gateways) =>
        if existsb is_null gateways
        then Answer500 "Failed to fetch payment gateways" TypeError
        else Answer200 (List.filter enabled_flag gateways)
    | Return _ => Answer500 "Failed to fetch payment gateways" TypeError
    end.
Proof.
  unfold paymentGateways.
  destruct get_gateways as [[|b|n|s|gateways|fields]|e]; try reflexivity.
  cbn [mbind result_bind]. rewrite filter_m_gateway_enabled.
  now destruct (existsb is_null gateways).
Qed.

End Gateways.

Lemma listProducts_total_sample :
  exists page,
    listProducts SampleOrders.catalog ∅ = Answer200 page
    /\ total page
       = Num.of_Z (from_option Str.digits_value 0%Z
                     (resp_headers SampleOrders.page !! "x-wp-total"))
    /\ ((from_option Str.digits_value 0
           (resp_headers SampleOrders.page !! "x-wp-total") < 2 ^ 53)%Z ->
        is_whole (total page)
          (from_option Str.digits_value 0%Z
             (resp_headers SampleOrders.page !! "x-wp-total"))).
Proof.
  apply (listProducts_total SampleOrders.catalog ∅ SampleOrders.page).
  - reflexivity.
  - reflexivity.
Defined.

(** ** More worked examples *)

Section MoreExamples.

Example parseInt_examples :
  parseInt "57" = Num.of_Z 57
  /\ parseInt " 12px" = Num.of_Z 12
  /\ parseInt "0x1f" = Num.of_Z 31
  /\ parseInt "-8" = Num.of_Z (-8)
  /\ parseInt "" = Num.nan
  /\ parseInt "abc" = Num.nan.
Proof. repeat split; vm_compute; reflexivity. Qed.

Example whole_number_rounded :
  parseFloat "9007199254740993" = Num.of_Z 9007199254740992
  /\ parseInt "9007199254740993" = Num.of_Z 9007199254740992.
Proof. split; vm_compute; reflexivity. Qed.

Example getProduct_null :
  getProduct SampleOrders.catalog "7"
  = Answer500 "Failed to fetch product details" TypeError.
Proof. reflexivity. Qed.

Example listProducts_page :
  listProducts SampleOrders.catalog ∅
  = Answer200
      {| products :=
           Array [ Object {[ "stock_status" := Str "instock";
                             "stock_quantity" := Number Num.one ]} ];
         total := Num.of_Z 57;
         totalPages := Num.zero |}.
Proof. vm_compute. reflexivity. Qed.

Example gateways_enabled :
  paymentGateways (Return (JArr SampleOrders.gateways))
  = Answer200 [ JObj [ ("id", JStr "bacs"); ("enabled", JBool true) ] ].
Proof. reflexivity. Qed.

Example marked_order_sent :
  prepare_order (JObj SampleOrders.marked_order)
  = Return
      (JObj [ ("payment_method", JStr "bacs");
              ("billing", SampleOrders.billing);
              ("shipping", SampleOrders.billing);
              ("line_items",
               JArr [ JObj [ ("product_id", JNum (Num.of_Z 7));
                             ("quantity", JNum (Num.of_Z 2)) ] ]) ]).
Proof. vm_compute. reflexivity. Qed.

Example spread_of_string :
  spread (Some (JStr "ab")) = JObj [ ("0", JStr "a"); ("1", JStr "b") ].
Proof. vm_compute. reflexivity. Qed.

End MoreExamples.
